(** * AI Guidebook System: declarations API and listing page

    A shallow embedding of

    - [server/routes/declarations.js] (multer upload filter, the
      [GET /api/declarations] and [POST /api/declarations] handlers),
    - [server/utils/responses.js] (response helpers),
    - [server/index.js] (the catch-all error middleware),
    - [client/src/pages/HomePage.tsx] (grouping and card rendering),
    - [client/src/types/index.ts] (the [Declaration] record),

    together with the properties of these functions that the system
    description states.

    Strings are byte strings.  The relational table is a list of rows in
    storage order, the uploads directory is a finite set of paths, and the
    handlers are state-passing functions over that world.  What the
    JavaScript runtime and Node provide ([JSON.parse], [path.extname],
    [String.prototype.toLowerCase], [String.prototype.trim],
    [Date.prototype.toLocaleDateString]) is an interface, [Platform]; the
    handlers are written against the interface and a reference instance is
    given for evaluating them on concrete requests. *)

From stdpp Require Import base strings list gmap pretty.
From Stdlib Require Import ZArith Ascii String Permutation Sorted Lia.

Open Scope string_scope.
Set Warnings "-register-all".

(** ** JavaScript values and the platform interface *)

Module Js.

(** A JSON value as [JSON.parse] produces it.  Numbers keep their lexeme
    (no floating point is needed here). *)
Inductive JsValue : Type :=
| JNull
| JBool (b : bool)
| JNum (lexeme : string)
| JStr (s : string)
| JArr (items : list JsValue)
| JObj (members : list (string * JsValue)).

(** The elements of [v] when [Array.isArray(v)] holds. *)
Definition as_array (v : JsValue) : option (list JsValue) :=
  match v with
  | JArr items => Some items
  | _ => None
  end.

(** Truthiness of a value that is either [undefined] or a string:
    [!x] is [true] exactly for [undefined] and for the empty string. *)
Definition truthy (x : option string) : bool :=
  match x with
  | None => false
  | Some EmptyString => false
  | Some (String _ _) => true
  end.

(** What the runtime provides.  [JSON_parse] returns [None] where
    [JSON.parse] throws a [SyntaxError]. *)
Class Platform : Type := {
  JSON_parse : string -> option JsValue;
  extname : string -> string;
  toLowerCase : string -> string;
  trim : string -> string;
  toLocaleDateString : string -> string
}.

(** *** Regular expressions of the form [/a|b|c/]

    [allowedTypes.test(s)] for an alternation of literals, without flags
    and without anchors: some alternative occurs somewhere in [s]. *)

Fixpoint occurs (p s : string) : bool :=
  String.prefix p s ||
  match s with
  | EmptyString => false
  | String _ s' => occurs p s'
  end.

Definition regex_test (alternatives : list string) (s : string) : bool :=
  existsb (fun p => occurs p s) alternatives.

End Js.

(** ** A reference platform

    A JSON reader after the grammar of ECMA-404, POSIX [path.extname],
    and the ASCII part of [toLowerCase] and [trim].  It serves to run the
    handlers on concrete requests. *)

Module RefPlatform.
Import Js.

Local Open Scope char_scope.
Local Open Scope list_scope.

Definition code (c : ascii) : nat := nat_of_ascii c.

Definition is_json_ws (c : ascii) : bool :=
  match code c with
  | 9 | 10 | 13 | 32 => true
  | _ => false
  end.

Definition is_digit (c : ascii) : bool :=
  (48 <=? code c)%nat && (code c <=? 57)%nat.

Fixpoint skip_ws (l : list ascii) : list ascii :=
  match l with
  | c :: r => if is_json_ws c then skip_ws r else l
  | [] => []
  end.

Fixpoint take_digits (l : list ascii) : list ascii * list ascii :=
  match l with
  | c :: r =>
      if is_digit c then
        let '(ds, r') := take_digits r in (c :: ds, r')
      else ([], l)
  | [] => ([], [])
  end.

(** [int frac? exp?] with the lexeme kept. *)
Definition lex_int (l : list ascii) : option (list ascii * list ascii) :=
  let '(sign, l1) :=
    match l with
    | "-" :: r => (["-"], r)
    | _ => ([], l)
    end in
  match l1 with
  | "0" :: r => Some (sign ++ ["0"], r)
  | _ =>
      let '(ds, r) := take_digits l1 in
      match ds with
      | [] => None
      | _ => Some (sign ++ ds, r)
      end
  end.

Definition lex_frac (l : list ascii) : option (list ascii * list ascii) :=
  match l with
  | "." :: r =>
      let '(ds, r') := take_digits r in
      match ds with
      | [] => None
      | _ => Some ("." :: ds, r')
      end
  | _ => Some ([], l)
  end.

Definition lex_exp (l : list ascii) : option (list ascii * list ascii) :=
  match l with
  | e :: r =>
      if (code e =? 101)%nat || (code e =? 69)%nat then
        let '(sign, r1) :=
          match r with
          | "+" :: r1 => (["+"], r1)
          | "-" :: r1 => (["-"], r1)
          | _ => ([], r)
          end in
        let '(ds, r2) := take_digits r1 in
        match ds with
        | [] => None
        | _ => Some (e :: sign ++ ds, r2)
        end
      else Some ([], l)
  | [] => Some ([], [])
  end.

Definition lex_number (l : list ascii) : option (list ascii * list ascii) :=
  match lex_int l with
  | None => None
  | Some (i, r) =>
      match lex_frac r with
      | None => None
      | Some (f, r1) =>
          match lex_exp r1 with
          | None => None
          | Some (e, r2) => Some (i ++ f ++ e, r2)
          end
      end
  end.

Definition hex_value (c : ascii) : option nat :=
  let n := code c in
  if (48 <=? n)%nat && (n <=? 57)%nat then Some (n - 48)%nat
  else if (65 <=? n)%nat && (n <=? 70)%nat then Some (n - 55)%nat
  else if (97 <=? n)%nat && (n <=? 102)%nat then Some (n - 87)%nat
  else None.

(** The bytes of one UTF-16 code unit written as UTF-8 (a surrogate is
    written on its own). *)
Definition utf8_of_unit (n : nat) : list ascii :=
  if (n <? 128)%nat then [ascii_of_nat n]
  else if (n <? 2048)%nat then
    [ascii_of_nat (192 + n / 64); ascii_of_nat (128 + n mod 64)]
  else
    [ascii_of_nat (224 + n / 4096);
     ascii_of_nat (128 + (n / 64) mod 64);
     ascii_of_nat (128 + n mod 64)].

(** The characters of a string literal after its opening quote
    (code 34); a backslash (code 92) opens an escape. *)
Definition is_quote (c : ascii) : bool := (code c =? 34)%nat.

Fixpoint lex_string (l : list ascii) (acc : list ascii)
  : option (list ascii * list ascii) :=
  match l with
  | [] => None
  | "\" :: r =>
      match r with
      | "\" :: r' => lex_string r' ("\" :: acc)
      | "/" :: r' => lex_string r' ("/" :: acc)
      | "b" :: r' => lex_string r' (ascii_of_nat 8 :: acc)
      | "f" :: r' => lex_string r' (ascii_of_nat 12 :: acc)
      | "n" :: r' => lex_string r' (ascii_of_nat 10 :: acc)
      | "r" :: r' => lex_string r' (ascii_of_nat 13 :: acc)
      | "t" :: r' => lex_string r' (ascii_of_nat 9 :: acc)
      | "u" :: h1 :: h2 :: h3 :: h4 :: r' =>
          match hex_value h1, hex_value h2, hex_value h3, hex_value h4 with
          | Some a, Some b, Some c, Some d =>
              lex_string r'
                (rev (utf8_of_unit (a * 4096 + b * 256 + c * 16 + d)) ++ acc)
          | _, _, _, _ => None
          end
      | e :: r' => if is_quote e then lex_string r' (e :: acc) else None
      | [] => None
      end
  | c :: r =>
      if is_quote c then Some (rev acc, r)
      else if (code c <? 32)%nat then None
      else lex_string r (c :: acc)
  end.

Definition str (l : list ascii) : string := string_of_list_ascii l.

Fixpoint parse_value (fuel : nat) (l : list ascii)
  : option (JsValue * list ascii) :=
  match fuel with
  | O => None
  | S fuel' =>
      match skip_ws l with
      | "n" :: "u" :: "l" :: "l" :: r => Some (JNull, r)
      | "t" :: "r" :: "u" :: "e" :: r => Some (JBool true, r)
      | "f" :: "a" :: "l" :: "s" :: "e" :: r => Some (JBool false, r)
      | "[" :: r =>
          match skip_ws r with
          | "]" :: r' => Some (JArr [], r')
          | _ => parse_elements fuel' r []
          end
      | "{" :: r =>
          match skip_ws r with
          | "}" :: r' => Some (JObj [], r')
          | _ => parse_members fuel' r []
          end
      | c :: r =>
          if is_quote c then
            match lex_string r [] with
            | Some (s, r') => Some (JStr (str s), r')
            | None => None
            end
          else
            match lex_number (c :: r) with
            | Some (n, r') => Some (JNum (str n), r')
            | None => None
            end
      | [] => None
      end
  end
with parse_elements (fuel : nat) (l : list ascii) (acc : list JsValue)
  : option (JsValue * list ascii) :=
  match fuel with
  | O => None
  | S fuel' =>
      match parse_value fuel' l with
      | Some (v, r) =>
          match skip_ws r with
          | "," :: r' => parse_elements fuel' r' (v :: acc)
          | "]" :: r' => Some (JArr (rev (v :: acc)), r')
          | _ => None
          end
      | None => None
      end
  end
with parse_members (fuel : nat) (l : list ascii)
       (acc : list (string * JsValue))
  : option (JsValue * list ascii) :=
  match fuel with
  | O => None
  | S fuel' =>
      match skip_ws l with
      | c :: r =>
          if is_quote c then
            match lex_string r [] with
            | Some (k, r1) =>
                match skip_ws r1 with
                | ":" :: r2 =>
                    match parse_value fuel' r2 with
                    | Some (v, r3) =>
                        match skip_ws r3 with
                        | "," :: r4 =>
                            parse_members fuel' r4 ((str k, v) :: acc)
                        | "}" :: r4 =>
                            Some (JObj (rev ((str k, v) :: acc)), r4)
                        | _ => None
                        end
                    | None => None
                    end
                | _ => None
                end
            | None => None
            end
          else None
      | [] => None
      end
  end.

(** [JSON.parse(text)]: one value, surrounded by white space only. *)
Definition json_parse (text : string) : option JsValue :=
  let l := list_ascii_of_string text in
  match parse_value (2 * List.length l + 2) l with
  | Some (v, r) =>
      match skip_ws r with
      | [] => Some v
      | _ => None
      end
  | None => None
  end.

(** POSIX [path.extname]: from the last dot of the last path component to
    its end; empty when there is no dot, when the only dot opens the
    component, and for the component [".."]. *)
Fixpoint drop_trailing_slashes (rev_path : list ascii) : list ascii :=
  match rev_path with
  | "/" :: r => drop_trailing_slashes r
  | _ => rev_path
  end.

Fixpoint take_component (rev_path : list ascii) : list ascii :=
  match rev_path with
  | [] => []
  | "/" :: _ => []
  | c :: r => c :: take_component r
  end.

(** On the reversed component: the reversed extension (dot included) and
    what precedes the dot, when there is a dot. *)
Fixpoint split_last_dot (rev_base : list ascii)
  : option (list ascii * list ascii) :=
  match rev_base with
  | [] => None
  | "." :: r => Some (["."], r)
  | c :: r =>
      match split_last_dot r with
      | Some (e, before) => Some (c :: e, before)
      | None => None
      end
  end.

Definition posix_extname (path : string) : string :=
  let rev_base :=
    take_component (drop_trailing_slashes (rev (list_ascii_of_string path))) in
  match split_last_dot rev_base with
  | None => EmptyString
  | Some (rev_ext, before) =>
      match before, rev_ext with
      | [], _ => EmptyString
      | ["."], ["."] => EmptyString
      | _, _ => str (rev rev_ext)
      end
  end.

Definition lower_ascii (c : ascii) : ascii :=
  if (65 <=? code c)%nat && (code c <=? 90)%nat
  then ascii_of_nat (code c + 32) else c.

Fixpoint ascii_toLowerCase (s : string) : string :=
  match s with
  | EmptyString => EmptyString
  | String c s' => String (lower_ascii c) (ascii_toLowerCase s')
  end.

(** White space and line terminators within ASCII. *)
Definition is_js_ws (c : ascii) : bool :=
  match code c with
  | 9 | 10 | 11 | 12 | 13 | 32 => true
  | _ => false
  end.

Fixpoint trim_start (l : list ascii) : list ascii :=
  match l with
  | c :: r => if is_js_ws c then trim_start r else l
  | [] => []
  end.

Definition ascii_trim (s : string) : string :=
  str (rev (trim_start (rev (trim_start (list_ascii_of_string s))))).

#[export] Instance reference : Platform := {|
  JSON_parse := json_parse;
  extname := posix_extname;
  toLowerCase := ascii_toLowerCase;
  trim := ascii_trim;
  toLocaleDateString := fun s => s
|}.

End RefPlatform.

(** ** The server *)

Module Server.
Import Js.

(** *** Persistence store and file system *)

(** One row of [ai_declarations] ([server/config/database.js]).  [ai_tool]
    holds the value bound to the third placeholder of the [INSERT]. *)
Record Row : Type := {
  id : Z;
  user_name : string;
  assignment_title : string;
  ai_tool : JsValue;
  usage_purpose : string;
  ai_content : string;
  screenshot_path : option string;
  created_at : Z
}.

(** The table in storage order, the [AUTO_INCREMENT] counter and the
    paths present in the uploads directory. *)
Record World : Type := {
  table : list Row;
  next_id : Z;
  uploads : gset string
}.

(** What a request finds around it: the process environment, the clock
    and random source used for file names, and what the database does
    with each query (whether it rejects it, and the [CURRENT_TIMESTAMP]
    of an insert). *)
Record Env : Type := {
  NODE_ENV : option string;
  Date_now : Z;
  Math_random_1E9 : Z;
  select_fault : option string;
  insert_fault : nat -> option string;
  insert_time : nat -> Z
}.

(** A call that returns or throws. *)
Inductive Try (A : Type) : Type :=
| Returned (a : A)
| Thrown (message : string).
Arguments Returned {A} a.
Arguments Thrown {A} message.

(** *** Responses *)

Inductive ErrorField : Type :=
| ErrMessage (text : string)
| ErrObject.

(** Status code and the members of the JSON body; an absent member is
    [None]. *)
Record Response : Type := {
  status : nat;
  success : bool;
  message : option string;
  error : option ErrorField;
  count : option nat;
  data : option (list Row)
}.

(** What became of a request: a response was sent, or the handler's
    promise was rejected without one. *)
Inductive Outcome : Type :=
| Responded (r : Response)
| Rejected (reason : string).

Definition development (env : Env) : bool :=
  bool_decide (NODE_ENV env = Some "development").

(** [server/utils/responses.js].  An error passed to the helpers is an
    [Error] object, given by its [message]. *)
Definition errorResponse (env : Env) (message : string) (statusCode : nat)
    (error : option string) : Response :=
  {| status := statusCode;
     success := false;
     message := Some message;
     error :=
       match error with
       | Some m =>
           if development env then
             Some (if truthy (Some m) then ErrMessage m else ErrObject)
           else None
       | None => None
       end;
     count := None;
     data := None |}.

Definition validationError (env : Env) (message : string)
    (errors : option string) : Response :=
  errorResponse env message 400 errors.

Definition notFoundError (env : Env) (message : string) : Response :=
  errorResponse env message 404 None.

Definition serverError (env : Env) (message : string)
    (error : option string) : Response :=
  errorResponse env message 500 error.

(** [server/index.js]: the error-handling middleware. *)
Definition errorMiddleware (env : Env) (err_message : string) : Response :=
  {| status := 500;
     success := false;
     message := Some "Internal server error";
     error := if development env then Some (ErrMessage err_message) else None;
     count := None;
     data := None |}.

(** *** File upload ([multer]) *)

Record FilePart : Type := {
  originalname : string;
  mimetype : string;
  size : Z
}.

(** [req.file] once the file is stored. *)
Record File : Type := {
  filename : string;
  path : string
}.

(** The text fields of a [multipart/form-data] body as [multer] hands
    them over: each is a string, or absent.  Bodies whose members are not
    strings (a JSON body, bracketed field names) are outside this
    record. *)
Record Body : Type := {
  userName : option string;
  assignmentTitle : option string;
  aiTools : option string;
  usagePurpose : option string;
  aiContent : option string
}.

(** The multipart request as it arrives, and as the handler sees it. *)
Record Upload : Type := {
  fields : Body;
  screenshot : option FilePart
}.

Record Request : Type := {
  body : Body;
  file : option File
}.

Definition uploadDir : string := "server/uploads".

Definition allowedTypes : list string := ["jpeg"; "jpg"; "png"; "gif"; "webp"].

Definition fileSize : Z := 5 * 1024 * 1024.

Section WithPlatform.
Context `{Platform}.

Definition fileFilter (file : FilePart) : Try bool :=
  let extname_ok :=
    regex_test allowedTypes (toLowerCase (extname (originalname file))) in
  let mimetype_ok := regex_test allowedTypes (mimetype file) in
  if extname_ok && mimetype_ok then Returned true
  else Thrown "Only image files are allowed (jpeg, jpg, png, gif, webp)".

Definition storage_filename (env : Env) (file : FilePart) : string :=
  let uniqueSuffix :=
    pretty (Date_now env) ++ "-" ++ pretty (Math_random_1E9 env) in
  "screenshot-" ++ uniqueSuffix ++ extname (originalname file).

(** [upload.single('screenshot')]: the filter runs first; an accepted file
    is written under its generated name; a file longer than
    [limits.fileSize] is removed again and the request fails. *)
Definition upload (env : Env) (w : World) (u : Upload) : World * Try Request :=
  match screenshot u with
  | None => (w, Returned {| body := fields u; file := None |})
  | Some part =>
      match fileFilter part with
      | Thrown m => (w, Thrown m)
      | Returned _ =>
          let name := storage_filename env part in
          let p := uploadDir ++ "/" ++ name in
          if (size part <=? fileSize)%Z then
            ({| table := table w; next_id := next_id w;
                uploads := uploads w ∪ {[p]} |},
             Returned {| body := fields u;
                         file := Some {| filename := name; path := p |} |})
          else
            ({| table := table w; next_id := next_id w;
                uploads := uploads w ∖ {[p]} |},
             Thrown "File too large")
      end
  end.

(** *** Database queries *)

(** [SELECT * FROM ai_declarations ORDER BY created_at DESC]: rows with
    equal [created_at] keep their storage order. *)
Fixpoint insert_desc (r : Row) (sorted : list Row) : list Row :=
  match sorted with
  | [] => [r]
  | x :: rest =>
      if (created_at r <? created_at x)%Z then x :: insert_desc r rest
      else r :: sorted
  end.

Fixpoint order_by_created_at_desc (rows : list Row) : list Row :=
  match rows with
  | [] => []
  | r :: rest => insert_desc r (order_by_created_at_desc rest)
  end.

(** One [INSERT INTO ai_declarations (...) VALUES (?, ?, ?, ?, ?, ?)]
    that the database accepts. *)
Definition insert_row (w : World) (userName assignmentTitle : string)
    (tool : JsValue) (usagePurpose aiContent : string)
    (screenshotPath : option string) (now : Z) : World :=
  {| table := table w ++
       [{| id := next_id w;
           user_name := userName;
           assignment_title := assignmentTitle;
           ai_tool := tool;
           usage_purpose := usagePurpose;
           ai_content := aiContent;
           screenshot_path := screenshotPath;
           created_at := now |}];
     next_id := next_id w + 1;
     uploads := uploads w |}.

(** [toolsArray.map(tool => pool.query(...))] followed by
    [await Promise.all(insertPromises)]: every query is issued, the ones
    the database accepts are committed, and the await throws the message
    of the first rejected one, if any.  The queries run on the pool side
    by side; they are taken here in the order of the array.  [i] is the
    position of the head of [tools] in [toolsArray]. *)
Fixpoint run_inserts (env : Env) (userName assignmentTitle : string)
    (usagePurpose aiContent : string) (screenshotPath : option string)
    (i : nat) (tools : list JsValue) (w : World) : World * option string :=
  match tools with
  | [] => (w, None)
  | tool :: rest =>
      let '(w1, e1) :=
        match insert_fault env i with
        | Some m => (w, Some m)
        | None =>
            (insert_row w userName assignmentTitle tool usagePurpose
               aiContent screenshotPath (insert_time env i), None)
        end in
      let '(w2, e2) :=
        run_inserts env userName assignmentTitle usagePurpose aiContent
          screenshotPath (S i) rest w1 in
      (w2, match e1 with Some m => Some m | None => e2 end)
  end.

(** *** File removal *)

(** [fs.unlinkSync(path)] throws when the file does not exist. *)
Definition unlinkSync (p : string) (files : gset string) : Try (gset string) :=
  if decide (p ∈ files) then Returned (files ∖ {[p]})
  else Thrown ("ENOENT: no such file or directory, unlink '" ++ p ++ "'").

(** [if (req.file) { fs.unlinkSync(req.file.path); }] *)
Definition unlink_uploaded (req : Request) (w : World) : Try World :=
  match file req with
  | None => Returned w
  | Some f =>
      match unlinkSync (path f) (uploads w) with
      | Returned files =>
          Returned {| table := table w; next_id := next_id w; uploads := files |}
      | Thrown m => Thrown m
      end
  end.

(** *** [GET /api/declarations] *)

Definition router_get (env : Env) (w : World) : World * Outcome :=
  match select_fault env with
  | None =>
      let rows := order_by_created_at_desc (table w) in
      (w, Responded {| status := 200;
                       success := true;
                       message := None;
                       error := None;
                       count := Some (List.length rows);
                       data := Some rows |})
  | Some error_message =>
      (w, Responded {| status := 500;
                       success := false;
                       message := Some "Failed to fetch declarations";
                       error := Some (ErrMessage error_message);
                       count := None;
                       data := None |})
  end.

(** *** [POST /api/declarations] *)

(** The five required fields when none of them is falsy, that is when
    [!userName || !assignmentTitle || !aiTools || !usagePurpose ||
    !aiContent] is false. *)
Definition required_fields (b : Body)
  : option (string * string * string * string * string) :=
  match userName b, assignmentTitle b, aiTools b, usagePurpose b, aiContent b with
  | Some u, Some a, Some t, Some p, Some c =>
      if truthy (Some u) && truthy (Some a) && truthy (Some t)
         && truthy (Some p) && truthy (Some c)
      then Some (u, a, t, p, c) else None
  | _, _, _, _, _ => None
  end.

(** The inner [try]: [JSON.parse(aiTools)], then the check that the result
    is an array and not empty; [None] when either throws. *)
Definition parse_tools (aiTools : string) : option (list JsValue) :=
  match JSON_parse aiTools with
  | None => None
  | Some toolsArray =>
      match as_array toolsArray with
      | None => None
      | Some items =>
          if (List.length items =? 0)%nat then None else Some items
      end
  end.

Definition bad_request (text : string) : Response :=
  {| status := 400; success := false; message := Some text;
     error := None; count := None; data := None |}.

Definition created (k : nat) : Response :=
  {| status := 201; success := true;
     message := Some ("Successfully created " ++ pretty k ++ " declaration(s)");
     error := None; count := None; data := None |}.

(** Rejecting a submission: remove the uploaded file, then answer 400. *)
Definition reject (req : Request) (w : World) (text : string)
  : World * Try Response :=
  match unlink_uploaded req w with
  | Returned w' => (w', Returned (bad_request text))
  | Thrown m => (w, Thrown m)
  end.

(** [req.file ? `/uploads/${req.file.filename}` : null] *)
Definition screenshotPath (req : Request) : option string :=
  match file req with
  | Some f => Some ("/uploads/" ++ filename f)
  | None => None
  end.

(** The body of the outer [try]. *)
Definition post_try (env : Env) (w : World) (req : Request)
  : World * Try Response :=
  match required_fields (body req) with
  | None => reject req w "All fields except screenshot are required"
  | Some (userName, assignmentTitle, aiTools, usagePurpose, aiContent) =>
      match parse_tools aiTools with
      | None => reject req w "Invalid AI tools format"
      | Some toolsArray =>
          match run_inserts env userName assignmentTitle usagePurpose
                  aiContent (screenshotPath req) 0 toolsArray w with
          | (w', Some m) => (w', Thrown m)
          | (w', None) => (w', Returned (created (List.length toolsArray)))
          end
      end
  end.

(** The handler with its [catch]. *)
Definition router_post (env : Env) (w : World) (req : Request)
  : World * Outcome :=
  match post_try env w req with
  | (w', Returned r) => (w', Responded r)
  | (w', Thrown error_message) =>
      match unlink_uploaded req w' with
      | Thrown m => (w', Rejected m)
      | Returned w'' =>
          (w'', Responded {| status := 500;
                             success := false;
                             message := Some "Failed to create declaration";
                             error := Some (ErrMessage error_message);
                             count := None;
                             data := None |})
      end
  end.

(** The route: [upload.single('screenshot')], then the handler; an error
    of the upload goes to the error middleware. *)
Definition post_declarations (env : Env) (w : World) (u : Upload)
  : World * Outcome :=
  match upload env w u with
  | (w', Returned req) => router_post env w' req
  | (w', Thrown m) => (w', Responded (errorMiddleware env m))
  end.

End WithPlatform.

End Server.

(** ** The listing page *)

Module Client.
Import Js.

(** [client/src/types/index.ts] *)
Record Declaration : Type := {
  id : Z;
  user_name : string;
  assignment_title : string;
  ai_tool : string;
  usage_purpose : string;
  ai_content : string;
  screenshot_path : option string;
  created_at : string
}.

(** The template literal
    [`${user_name}-${assignment_title}-${created_at}`]. *)
Definition group_key (declaration : Declaration) : string :=
  user_name declaration ++ "-" ++ assignment_title declaration ++ "-"
  ++ created_at declaration.

(** The accumulator object of the [reduce], as its own properties in
    insertion order.  A key always holds a dash, so it is neither an
    integer index (which [Object.values] would move to the front) nor the
    name of a property inherited from [Object.prototype]. *)
Definition Groups : Type := list (string * list Declaration).

(** [if (!acc[key]) acc[key] = []; acc[key].push(declaration)] *)
Fixpoint push_declaration (key : string) (declaration : Declaration)
    (acc : Groups) : Groups :=
  match acc with
  | [] => [(key, [declaration])]
  | (k, group) :: rest =>
      if String.eqb k key then (k, (group ++ [declaration])%list) :: rest
      else (k, group) :: push_declaration key declaration rest
  end.

Definition groupedDeclarations (declarations : list Declaration) : Groups :=
  fold_left
    (fun acc declaration =>
       push_declaration (group_key declaration) declaration acc)
    declarations [].

Definition Object_values (acc : Groups) : list (list Declaration) :=
  map snd acc.

(** What a declaration card shows. *)
Record Card : Type := {
  card_title : string;
  card_user : string;
  card_date : string;
  card_tools : list string;
  card_purpose : string;
  card_content : string;
  card_screenshot : option string
}.

Section WithPlatform.
Context `{Platform}.

Definition formatDate (dateString : string) : string :=
  toLocaleDateString dateString.

(** The body of [Object.values(groupedDeclarations).map((group, index) =>
    ...)]; reading [group[0]] of an empty group would throw. *)
Definition render_card (group : list Declaration) : option Card :=
  match group with
  | [] => None
  | firstDeclaration :: _ =>
      Some {| card_title := assignment_title firstDeclaration;
              card_user := user_name firstDeclaration;
              card_date := formatDate (created_at firstDeclaration);
              card_tools := map ai_tool group;
              card_purpose := usage_purpose firstDeclaration;
              card_content := ai_content firstDeclaration;
              card_screenshot :=
                if truthy (screenshot_path firstDeclaration)
                then screenshot_path firstDeclaration else None |}
  end.

(** The [declarations-list] element. *)
Definition declarations_list (declarations : list Declaration)
  : list (option Card) :=
  map render_card (Object_values (groupedDeclarations declarations)).

End WithPlatform.

End Client.

(** ** Vocabulary of the properties *)

Module Spec.
Import Js Server.

(** [p] occurs in [s]. *)
Definition contains (p s : string) : Prop :=
  exists pre post : string, s = pre ++ p ++ post.

(** What [allowedTypes.test(s)] tests: one of the five names occurs
    somewhere in [s] (the regular expression [/jpeg|jpg|png|gif|webp/] has
    no anchors).  This is weaker than being on the allow-list, see
    [listed_extension] and [listed_mime]. *)
Definition mentions_allowed_type (s : string) : Prop :=
  exists t, In t ["jpeg"; "jpg"; "png"; "gif"; "webp"] /\ contains t s.

(** The extension is on the allow-list: a dot followed by one of the five
    names. *)
Definition listed_extension (ext : string) : Prop :=
  exists t, In t ["jpeg"; "jpg"; "png"; "gif"; "webp"] /\ ext = "." ++ t.

(** The MIME type is on the allow-list: [image/] followed by one of the
    five names. *)
Definition listed_mime (mime : string) : Prop :=
  exists t, In t ["jpeg"; "jpg"; "png"; "gif"; "webp"] /\ mime = "image/" ++ t.

(** The upload stage let the request through to the handler with a file
    attached ([req.file] is set). *)
Definition accepted (result : World * Try Request) : Prop :=
  exists req f, snd result = Returned req /\ file req = Some f.

(** The rows that the inserts of a submission commit, in the order of
    [toolsArray]: position [i] is skipped when the database rejects it. *)
Fixpoint inserted_rows (env : Env) (userName assignmentTitle : string)
    (usagePurpose aiContent : string) (screenshotPath : option string)
    (i : nat) (first_id : Z) (tools : list JsValue) : list Row :=
  match tools with
  | [] => []
  | tool :: rest =>
      match insert_fault env i with
      | Some _ =>
          inserted_rows env userName assignmentTitle usagePurpose aiContent
            screenshotPath (S i) first_id rest
      | None =>
          {| id := first_id;
             user_name := userName;
             assignment_title := assignmentTitle;
             ai_tool := tool;
             usage_purpose := usagePurpose;
             ai_content := aiContent;
             screenshot_path := screenshotPath;
             created_at := insert_time env i |}
          :: inserted_rows env userName assignmentTitle usagePurpose aiContent
               screenshotPath (S i) (first_id + 1) rest
      end
  end.

(** The message the [await] throws: that of the first rejected insert. *)
Fixpoint first_fault (env : Env) (i : nat) (tools : list JsValue)
  : option string :=
  match tools with
  | [] => None
  | _ :: rest =>
      match insert_fault env i with
      | Some m => Some m
      | None => first_fault env (S i) rest
      end
  end.

(** The row shares the fields of the submission. *)
Definition shares (userName assignmentTitle usagePurpose aiContent : string)
    (screenshotPath : option string) (r : Row) : Prop :=
  user_name r = userName /\ assignment_title r = assignmentTitle /\
  usage_purpose r = usagePurpose /\ ai_content r = aiContent /\
  screenshot_path r = screenshotPath.

(** [!x] for a field of the body. *)
Definition falsy (x : option string) : Prop := x = None \/ x = Some "".

Definition missing_field (b : Body) : Prop :=
  falsy (userName b) \/ falsy (assignmentTitle b) \/ falsy (aiTools b) \/
  falsy (usagePurpose b) \/ falsy (aiContent b).

(** The uploaded file of the request, if any, is in the uploads
    directory: what [upload.single] leaves behind for the handler. *)
Definition stored (req : Request) (w : World) : Prop :=
  forall f, file req = Some f -> path f ∈ uploads w.

(** The world once the uploaded file of the request has been removed. *)
Definition without_upload (req : Request) (w : World) : World :=
  {| table := table w;
     next_id := next_id w;
     uploads :=
       match file req with
       | Some f => uploads w ∖ {[path f]}
       | None => uploads w
       end |}.

Section WithPlatform.
Context `{Platform}.

Definition parses_as_nonempty_array (t : string) (items : list JsValue)
  : Prop :=
  JSON_parse t = Some (JArr items) /\ items <> [].

(** The submission passes the handler's checks. *)
Definition valid_submission (b : Body) (u a t p c : string)
    (items : list JsValue) : Prop :=
  userName b = Some u /\ u <> "" /\
  assignmentTitle b = Some a /\ a <> "" /\
  aiTools b = Some t /\ t <> "" /\
  usagePurpose b = Some p /\ p <> "" /\
  aiContent b = Some c /\ c <> "" /\
  parses_as_nonempty_array t items.

(** The submission fails them. *)
Definition rejected_submission (b : Body) : Prop :=
  missing_field b \/
  forall t, aiTools b = Some t -> forall items, ~ parses_as_nonempty_array t items.

(** The calls of the API, and the worlds they lead to from an empty
    table. *)
Inductive Call : Type :=
| GET
| POST (u : Upload).

Definition serve (env : Env) (w : World) (call : Call) : World :=
  match call with
  | GET => fst (router_get env w)
  | POST u => fst (post_declarations env w u)
  end.

Definition run (calls : list (Env * Call)) (w : World) : World :=
  fold_left (fun w' ec => serve (fst ec) w' (snd ec)) calls w.

End WithPlatform.

Definition initial : World :=
  {| table := []; next_id := 1%Z; uploads := ∅ |}.

(** Rows from the most recent to the oldest. *)
Definition newer_first (r1 r2 : Row) : Prop :=
  (created_at r2 <= created_at r1)%Z.

(** The row names its submitter and its assignment. *)
Definition named (r : Row) : Prop :=
  user_name r <> "" /\ assignment_title r <> "".

(** The answer of the handler's [catch]. *)
Definition creation_failure (error_message : string) : Response :=
  {| status := 500;
     success := false;
     message := Some "Failed to create declaration";
     error := Some (ErrMessage error_message);
     count := None;
     data := None |}.

End Spec.

Module ClientSpec.
Import Js Client.

(** The keys of a list in the order in which they are first seen. *)
Fixpoint first_seen (keys : list string) : list string :=
  match keys with
  | [] => []
  | k :: rest =>
      k :: List.filter (fun k' => negb (String.eqb k' k)) (first_seen rest)
  end.

(** The rows of the list that have the key, in the order of the list. *)
Definition with_key (k : string) (l : list Declaration) : list Declaration :=
  List.filter (fun d => String.eqb (group_key d) k) l.

Definition triple (d : Declaration) : string * string * string :=
  (user_name d, assignment_title d, created_at d).

(** Two rows are shown on the same card. *)
Definition same_group (l : list Declaration) (d1 d2 : Declaration) : Prop :=
  exists group,
    In group (Object_values (groupedDeclarations l)) /\
    In d1 group /\ In d2 group.

End ClientSpec.

(** ** Concrete requests

    The scenario of the system description (Alice declares ChatGPT and
    Grammarly for Essay 1) and a few other requests, on the reference
    platform. *)

Module Scenario.
Import Js Server.

Definition quoted (s : string) : string :=
  String (ascii_of_nat 34) (s ++ String (ascii_of_nat 34) EmptyString).

(** A database that accepts every query, in a production process. *)
Definition env_up : Env :=
  {| NODE_ENV := Some "production";
     Date_now := 1700000000000%Z;
     Math_random_1E9 := 123456789%Z;
     select_fault := None;
     insert_fault := fun _ => None;
     insert_time := fun _ => 1700000000%Z |}.

(** A database that rejects the read and the second insert of a
    submission, in a production process. *)
Definition env_faulty : Env :=
  {| NODE_ENV := Some "production";
     Date_now := 1700000000000%Z;
     Math_random_1E9 := 123456789%Z;
     select_fault := Some "connect ECONNREFUSED 127.0.0.1:3306";
     insert_fault :=
       fun i => if (i =? 1)%nat then Some "Connection lost" else None;
     insert_time := fun _ => 1700000000%Z |}.

Definition alice_tools : string :=
  "[" ++ quoted "ChatGPT" ++ "," ++ quoted "Grammarly" ++ "]".

Definition alice_body : Body :=
  {| userName := Some "Alice";
     assignmentTitle := Some "Essay 1";
     aiTools := Some alice_tools;
     usagePurpose := Some "brainstorming";
     aiContent := Some "outline" |}.

Definition alice : Request := {| body := alice_body; file := None |}.

Definition shot : File :=
  {| filename := "screenshot-1700000000000-123456789.png";
     path := "server/uploads/screenshot-1700000000000-123456789.png" |}.

Definition alice_with_shot : Request :=
  {| body := alice_body; file := Some shot |}.

(** The world in which the screenshot has been stored. *)
Definition shot_stored : World :=
  {| table := []; next_id := 1%Z; uploads := {[path shot]} |}.

(** A body whose [aiTools] is the array [[1]]. *)
Definition numbers_body : Body :=
  {| userName := Some "Alice";
     assignmentTitle := Some "Essay 1";
     aiTools := Some "[1]";
     usagePurpose := Some "brainstorming";
     aiContent := Some "outline" |}.

(** A body whose user name is a single space. *)
Definition blank_body : Body :=
  {| userName := Some " ";
     assignmentTitle := Some "Essay 1";
     aiTools := Some alice_tools;
     usagePurpose := Some "brainstorming";
     aiContent := Some "outline" |}.

(** A body without content. *)
Definition no_content_body : Body :=
  {| userName := Some "Alice";
     assignmentTitle := Some "Essay 1";
     aiTools := Some alice_tools;
     usagePurpose := Some "brainstorming";
     aiContent := Some EmptyString |}.

Definition png_part : FilePart :=
  {| originalname := "Shot.PNG"; mimetype := "image/png"; size := 204800%Z |}.

Definition alice_upload : Upload :=
  {| fields := alice_body; screenshot := Some png_part |}.

End Scenario.

Module ClientScenario.
Import Js Client.

Definition row (n : Z) (user title tool stamp : string) : Declaration :=
  {| id := n; user_name := user; assignment_title := title;
     ai_tool := tool; usage_purpose := "brainstorming";
     ai_content := "outline"; screenshot_path := None;
     created_at := stamp |}.

Definition stamp : string := "2024-01-01T10:00:00.000Z".

Definition chatgpt_row : Declaration := row 1 "Alice" "Essay 1" "ChatGPT" stamp.
Definition grammarly_row : Declaration :=
  row 2 "Alice" "Essay 1" "Grammarly" stamp.

(** Two rows of different users and assignments whose keys coincide. *)
Definition dash_user_row : Declaration := row 3 "a-b" "c" "Claude" stamp.
Definition dash_title_row : Declaration := row 4 "a" "b-c" "DALL-E" stamp.

End ClientScenario.

(** ** The declaration form

    [client/src/pages/DeclarationFormPage.tsx]: the state of the form, its
    event handlers, its validation and what it submits. *)

Module Form.
Import Js.

(** A [File] of the browser, by the members the page reads. *)
Record ClientFile : Type := {
  name : string;
  type : string;
  size : Z
}.

(** [DeclarationFormData] of [client/src/types/index.ts]. *)
Record DeclarationFormData : Type := {
  userName : string;
  assignmentTitle : string;
  aiTools : list string;
  customTool : string;
  usagePurpose : string;
  aiContent : string;
  screenshot : option ClientFile
}.

Definition AI_TOOLS : list string :=
  ["ChatGPT"; "GitHub Copilot"; "Claude"; "Grammarly"; "Turnitin";
   "DALL-E"; "Data Analysis Tools"].

(** The [useState] cells of the component. *)
Record State : Type := {
  formData : DeclarationFormData;
  loading : bool;
  error : string;
  screenshotPreview : string
}.

Definition initial : State :=
  {| formData :=
       {| userName := EmptyString; assignmentTitle := EmptyString;
          aiTools := []; customTool := EmptyString;
          usagePurpose := EmptyString; aiContent := EmptyString;
          screenshot := None |};
     loading := false;
     error := EmptyString;
     screenshotPreview := EmptyString |}.

Definition setFormData (f : DeclarationFormData -> DeclarationFormData)
    (st : State) : State :=
  {| formData := f (formData st); loading := loading st;
     error := error st; screenshotPreview := screenshotPreview st |}.

Definition setError (text : string) (st : State) : State :=
  {| formData := formData st; loading := loading st;
     error := text; screenshotPreview := screenshotPreview st |}.

Definition setLoading (b : bool) (st : State) : State :=
  {| formData := formData st; loading := b;
     error := error st; screenshotPreview := screenshotPreview st |}.

Definition setScreenshotPreview (url : string) (st : State) : State :=
  {| formData := formData st; loading := loading st;
     error := error st; screenshotPreview := url |}.

(** The [name] of the inputs and text areas wired to
    [handleInputChange]. *)
Inductive TextInput : Type :=
| userName_input
| assignmentTitle_input
| customTool_input
| usagePurpose_input
| aiContent_input.

(** [setFormData(prev => ({ ...prev, [name]: value }))] *)
Definition handleInputChange (input : TextInput) (value : string)
    (st : State) : State :=
  setFormData
    (fun prev =>
       {| userName :=
            match input with userName_input => value | _ => userName prev end;
          assignmentTitle :=
            match input with
            | assignmentTitle_input => value
            | _ => assignmentTitle prev
            end;
          aiTools := aiTools prev;
          customTool :=
            match input with
            | customTool_input => value
            | _ => customTool prev
            end;
          usagePurpose :=
            match input with
            | usagePurpose_input => value
            | _ => usagePurpose prev
            end;
          aiContent :=
            match input with aiContent_input => value | _ => aiContent prev end;
          screenshot := screenshot prev |})
    st.

(** [prev.aiTools.includes(tool)] *)
Definition includes (tools : list string) (tool : string) : bool :=
  existsb (String.eqb tool) tools.

Definition with_tools (tools : list string) (prev : DeclarationFormData)
  : DeclarationFormData :=
  {| userName := userName prev; assignmentTitle := assignmentTitle prev;
     aiTools := tools; customTool := customTool prev;
     usagePurpose := usagePurpose prev; aiContent := aiContent prev;
     screenshot := screenshot prev |}.

Definition with_screenshot (file : option ClientFile)
    (prev : DeclarationFormData) : DeclarationFormData :=
  {| userName := userName prev; assignmentTitle := assignmentTitle prev;
     aiTools := aiTools prev; customTool := customTool prev;
     usagePurpose := usagePurpose prev; aiContent := aiContent prev;
     screenshot := file |}.

(** The new value of [aiTools]: the tool is dropped if it was checked and
    added at the end if it was not. *)
Definition toggle (tool : string) (tools : list string) : list string :=
  if includes tools tool
  then List.filter (fun t => negb (String.eqb t tool)) tools
  else (tools ++ [tool])%list.

Definition handleToolChange (tool : string) (st : State) : State :=
  setFormData (fun prev => with_tools (toggle tool (aiTools prev)) prev) st.

Definition maxFileSize : Z := 5 * 1024 * 1024.

(** [handleFileChange], up to the start of the [FileReader]; [files0] is
    [e.target.files?.[0]]. *)
Definition handleFileChange (files0 : option ClientFile) (st : State)
  : State :=
  match files0 with
  | None => st
  | Some file =>
      if negb (String.prefix "image/" (type file)) then
        setError "Please upload an image file" st
      else if (maxFileSize <? size file)%Z then
        setError "File size must be less than 5MB" st
      else
        setError EmptyString
          (setFormData (fun prev => with_screenshot (Some file) prev) st)
  end.

(** [reader.onloadend]: [result] is the data URL that was read. *)
Definition reader_onloadend (result : string) (st : State) : State :=
  setScreenshotPreview result st.

Definition removeScreenshot (st : State) : State :=
  setScreenshotPreview EmptyString
    (setFormData (fun prev => with_screenshot None prev) st).

(** What the multipart body of [handleSubmit] holds. *)
Record SubmitData : Type := {
  submit_userName : string;
  submit_assignmentTitle : string;
  submit_usagePurpose : string;
  submit_aiContent : string;
  submit_aiTools : string;
  submit_screenshot : option ClientFile
}.

(** What [axios.post] comes back with: a response of status 2xx with its
    [data.success], or an error with [err.response?.data?.message]. *)
Inductive PostResult : Type :=
| Resolved (data_success : bool)
| Failed (data_message : option string).

(** [JSON.stringify] on an array of strings. *)
Class Stringify : Type := {
  JSON_stringify : list string -> string
}.

Section WithPlatform.
Context `{Platform} `{Stringify}.

Definition blank (s : string) : bool := negb (truthy (Some (trim s))).

(** [validateForm]: whether the form may be sent, and the state with the
    message of the first check that fails. *)
Definition validateForm (st : State) : bool * State :=
  let fd := formData st in
  if blank (userName fd) then
    (false, setError "Please enter your name" st)
  else if blank (assignmentTitle fd) then
    (false, setError "Please enter the assignment title" st)
  else if (List.length (aiTools fd) =? 0)%nat && blank (customTool fd) then
    (false,
     setError "Please select at least one AI tool or enter a custom tool" st)
  else if blank (usagePurpose fd) then
    (false, setError "Please describe the purpose of AI usage" st)
  else if blank (aiContent fd) then
    (false, setError "Please describe the AI-generated content" st)
  else (true, st).

(** [allTools]: the checked tools, then the custom tool if it is not
    blank. *)
Definition allTools (fd : DeclarationFormData) : list string :=
  (aiTools fd
   ++ (if blank (customTool fd) then [] else [trim (customTool fd)]))%list.

Definition submitData (fd : DeclarationFormData) : SubmitData :=
  {| submit_userName := trim (userName fd);
     submit_assignmentTitle := trim (assignmentTitle fd);
     submit_usagePurpose := trim (usagePurpose fd);
     submit_aiContent := trim (aiContent fd);
     submit_aiTools := JSON_stringify (allTools fd);
     submit_screenshot := screenshot fd |}.

Definition submit_failed : string :=
  "Failed to submit declaration. Please try again.".

(** [handleSubmit]: the state it leaves and whether it navigated to the
    home page; [post] is the call of the API. *)
Definition handleSubmit (post : SubmitData -> PostResult) (st : State)
  : State * bool :=
  match validateForm (setError EmptyString st) with
  | (false, st1) => (st1, false)
  | (true, st1) =>
      match post (submitData (formData st1)) with
      | Resolved true => (setLoading false (setLoading true st1), true)
      | Resolved false =>
          (setLoading false
             (setError submit_failed (setLoading true st1)), false)
      | Failed data_message =>
          (setLoading false
             (setError
                (if truthy data_message
                 then default EmptyString data_message
                 else submit_failed)
                (setLoading true st1)), false)
      end
  end.

(** What [handleSubmit] sends, if it sends anything. *)
Definition submitted (st : State) : option SubmitData :=
  match validateForm (setError EmptyString st) with
  | (false, _) => None
  | (true, st1) => Some (submitData (formData st1))
  end.

(** The events of the page and the state after a run of them. *)
Inductive Event : Type :=
| InputChange (input : TextInput) (value : string)
| ToolChange (tool : string)
| FileChange (files0 : option ClientFile)
| LoadEnd (result : string)
| RemoveScreenshot
| Submit (result : PostResult).

Definition handle (st : State) (e : Event) : State :=
  match e with
  | InputChange input value => handleInputChange input value st
  | ToolChange tool => handleToolChange tool st
  | FileChange files0 => handleFileChange files0 st
  | LoadEnd result => reader_onloadend result st
  | RemoveScreenshot => removeScreenshot st
  | Submit result => fst (handleSubmit (fun _ => result) st)
  end.

Definition after (events : list Event) : State :=
  fold_left handle events initial.

End WithPlatform.

End Form.

(** ** The home page: fetching and what is shown

    The state and the effects of [HomePage] in
    [client/src/pages/HomePage.tsx]. *)

Module Home.
Import Js Client.

Record State : Type := {
  declarations : list Declaration;
  loading : bool;
  error : string
}.

(** [useState<Declaration[]>([])], [useState(true)], [useState('')] *)
Definition initial : State :=
  {| declarations := []; loading := true; error := EmptyString |}.

(** What [axios.get] comes back with: a response of status 2xx with its
    [data.success] and [data.data], or an error. *)
Inductive GetResult : Type :=
| Resolved (data_success : bool) (data_data : list Declaration)
| Failed.

(** [fetchDeclarations], from [setLoading(true)] to the [finally]. *)
Definition fetchDeclarations (result : GetResult) (st : State) : State :=
  match result with
  | Resolved true data_data =>
      {| declarations := data_data; loading := false; error := EmptyString |}
  | Resolved false _ =>
      {| declarations := declarations st; loading := false;
         error := "Failed to load declarations" |}
  | Failed =>
      {| declarations := declarations st; loading := false;
         error := "Failed to connect to the server. Please try again later." |}
  end.

(** The parts of the page that depend on the state. *)
Record View : Type := {
  count_shown : nat;
  loading_state : bool;
  error_message : option string;
  empty_state : bool;
  list_shown : option (list (option Card))
}.

Section WithPlatform.
Context `{Platform}.

Definition HomePage (st : State) : View :=
  let quiet := negb (loading st) && negb (truthy (Some (error st))) in
  {| count_shown := List.length (declarations st);
     loading_state := loading st;
     error_message :=
       if truthy (Some (error st)) then Some (error st) else None;
     empty_state := quiet && (List.length (declarations st) =? 0)%nat;
     list_shown :=
       if quiet && (0 <? List.length (declarations st))%nat
       then Some (declarations_list (declarations st)) else None |}.

End WithPlatform.

End Home.

(** ** The response helper for successes

    [successResponse] of [server/utils/responses.js]; the body is the
    object [{ success: true, message, ...data }], as a map from member
    names to values. *)

Module Responses.
Import Js.

Definition successResponse (data : gmap string JsValue)
    (message : option string) (statusCode : option nat)
  : nat * gmap string JsValue :=
  (default 200%nat statusCode,
   data ∪ <["success" := JBool true]>
            (<["message" := JStr (default "Success" message)]> ∅)).

End Responses.

(** ** Client and server together

    What the form sends as the server receives it, and the answers of the
    server as [axios] hands them to the pages. *)

Module Wire.
Import Js.

Definition file_part (f : Form.ClientFile) : Server.FilePart :=
  {| Server.originalname := Form.name f;
     Server.mimetype := Form.type f;
     Server.size := Form.size f |}.

Definition multipart (sd : Form.SubmitData) : Server.Upload :=
  {| Server.fields :=
       {| Server.userName := Some (Form.submit_userName sd);
          Server.assignmentTitle := Some (Form.submit_assignmentTitle sd);
          Server.aiTools := Some (Form.submit_aiTools sd);
          Server.usagePurpose := Some (Form.submit_usagePurpose sd);
          Server.aiContent := Some (Form.submit_aiContent sd) |};
     Server.screenshot := option_map file_part (Form.submit_screenshot sd) |}.

(** [axios] resolves on a status from 200 to 299 and rejects otherwise. *)
Definition resolves (r : Server.Response) : bool :=
  (200 <=? Server.status r)%nat && (Server.status r <? 300)%nat.

Definition post_result (r : Server.Response) : Form.PostResult :=
  if resolves r then Form.Resolved (Server.success r)
  else Form.Failed (Server.message r).

Section WithPlatform.
Context `{Platform}.

(** [axios.post('/api/declarations', submitData)] against the server in
    world [w]: the world it leaves and the result; a request that is
    never answered counts as an error without response. *)
Definition api_post (env : Server.Env) (w : Server.World)
    (sd : Form.SubmitData) : Server.World * Form.PostResult :=
  match Server.post_declarations env w (multipart sd) with
  | (w', Server.Responded r) => (w', post_result r)
  | (w', Server.Rejected _) => (w', Form.Failed None)
  end.

(** [axios.get('/api/declarations')]; [wire] is a row as the JSON of the
    response carries it. *)
Definition api_get (wire : Server.Row -> Client.Declaration)
    (env : Server.Env) (w : Server.World) : Home.GetResult :=
  match snd (Server.router_get env w) with
  | Server.Responded r =>
      if resolves r
      then Home.Resolved (Server.success r)
             (map wire (default [] (Server.data r)))
      else Home.Failed
  | Server.Rejected _ => Home.Failed
  end.

End WithPlatform.

End Wire.

(** ** Further vocabulary *)

Module MoreSpec.
Import Js Server.

(** The identifiers of the table are increasing and below the counter. *)
Definition ids_in_order (w : World) : Prop :=
  StronglySorted (fun r1 r2 => (id r1 < id r2)%Z) (table w) /\
  Forall (fun r => (id r < next_id w)%Z) (table w).

(** The screenshot of the form, if any, passed the checks of
    [handleFileChange]. *)
Definition screenshot_checked (st : Form.State) : Prop :=
  forall f, Form.screenshot (Form.formData st) = Some f ->
    String.prefix "image/" (Form.type f) = true /\
    (Form.size f <= 5 * 1024 * 1024)%Z.

Section WithPlatform.
Context `{Platform} `{Form.Stringify}.

(** [JSON.parse] reads back what [JSON.stringify] wrote for this array of
    strings, and what was written is not the empty text. *)
Definition round_trips (tools : list string) : Prop :=
  Form.JSON_stringify tools <> EmptyString /\
  JSON_parse (Form.JSON_stringify tools) = Some (JArr (map JStr tools)).

End WithPlatform.

(** The sections of the home page that take turns: the error box, the
    empty state and the list. *)
Definition shows_only_error (v : Home.View) : Prop :=
  Home.error_message v <> None /\ Home.empty_state v = false /\
  Home.list_shown v = None.

Definition shows_only_empty (v : Home.View) : Prop :=
  Home.error_message v = None /\ Home.empty_state v = true /\
  Home.list_shown v = None.

Definition shows_only_list (v : Home.View) : Prop :=
  Home.error_message v = None /\ Home.empty_state v = false /\
  Home.list_shown v <> None.

End MoreSpec.

(** ** A reference [JSON.stringify] and a filled-in form *)

Module FormScenario.
Import Js RefPlatform.

Local Open Scope list_scope.

Definition hex_digit (n : nat) : ascii :=
  ascii_of_nat (if (n <? 10)%nat then 48 + n else 87 + n).

(** One character of a string as [JSON.stringify] writes it. *)
Definition escape (c : ascii) : list ascii :=
  let n := code c in
  let backslash := ascii_of_nat 92 in
  if (n =? 34)%nat || (n =? 92)%nat then [backslash; c]
  else if (n =? 8)%nat then [backslash; ascii_of_nat 98]
  else if (n =? 9)%nat then [backslash; ascii_of_nat 116]
  else if (n =? 10)%nat then [backslash; ascii_of_nat 110]
  else if (n =? 12)%nat then [backslash; ascii_of_nat 102]
  else if (n =? 13)%nat then [backslash; ascii_of_nat 114]
  else if (n <? 32)%nat then
    [backslash; ascii_of_nat 117; ascii_of_nat 48; ascii_of_nat 48;
     hex_digit (n / 16); hex_digit (n mod 16)]
  else [c].

Definition quote_string (s : string) : list ascii :=
  ascii_of_nat 34
  :: List.concat (map escape (list_ascii_of_string s)) ++ [ascii_of_nat 34].

Fixpoint join_comma (parts : list (list ascii)) : list ascii :=
  match parts with
  | [] => []
  | [x] => x
  | x :: rest => x ++ ascii_of_nat 44 :: join_comma rest
  end.

Definition json_stringify (l : list string) : string :=
  str (ascii_of_nat 91 :: join_comma (map quote_string l) ++ [ascii_of_nat 93]).

#[export] Instance stringify : Form.Stringify := {|
  Form.JSON_stringify := json_stringify
|}.

(** Alice fills in the form: ChatGPT checked, Grammarly as custom tool. *)
Definition alice_events : list Form.Event :=
  [Form.InputChange Form.userName_input " Alice ";
   Form.InputChange Form.assignmentTitle_input "Essay 1";
   Form.ToolChange "ChatGPT";
   Form.InputChange Form.customTool_input " Grammarly";
   Form.InputChange Form.usagePurpose_input "brainstorming";
   Form.InputChange Form.aiContent_input "outline"].

Definition alice_form : Form.State := Form.after alice_events.

Definition png_file : Form.ClientFile :=
  {| Form.name := "shot.png"; Form.type := "image/png";
     Form.size := 204800%Z |}.



End FormScenario.

(** * Properties *)

(** ** Occurrence of a literal in a string *)

Module JsFacts.
Import Js Spec.

Lemma prefix_spec (p s : string) :
  String.prefix p s = true <-> exists post : string, s = p ++ post.
Proof.
  revert s. induction p as [|c p IH]; intros s.
  - split; [intros _; exists s; reflexivity | now destruct s].
  - destruct s as [|d s]; simpl.
    + split; [discriminate | intros [post Hpost]; discriminate].
    + destruct (Ascii.ascii_dec c d) as [->|Hne].
      * rewrite IH. split; intros [post Hpost]; exists post.
        -- now rewrite Hpost.
        -- now inversion Hpost.
      * split; [discriminate | intros [post Hpost]].
        inversion Hpost. congruence.
Qed.

Lemma occurs_empty (p : string) :
  occurs p EmptyString = String.prefix p EmptyString || false.
Proof. reflexivity. Qed.

Lemma occurs_String (p : string) (c : ascii) (s : string) :
  occurs p (String c s) = String.prefix p (String c s) || occurs p s.
Proof. reflexivity. Qed.

Lemma occurs_spec (p s : string) : occurs p s = true <-> contains p s.
Proof.
  induction s as [|c s IH]; [rewrite occurs_empty | rewrite occurs_String].
  - rewrite orb_false_r, prefix_spec. split.
    + intros [post Hpost]. now exists EmptyString, post.
    + intros [pre [post Hs]]. destruct pre; simpl in Hs.
      * now exists post.
      * discriminate.
  - rewrite orb_true_iff, prefix_spec, IH. split.
    + intros [[post Hpost]|[pre [post Hs]]].
      * now exists EmptyString, post.
      * exists (String c pre), post. simpl. now rewrite Hs.
    + intros [pre [post Hs]]. destruct pre as [|d pre]; simpl in Hs.
      * left. now exists post.
      * right. inversion Hs. now exists pre, post.
Qed.

Lemma regex_test_spec (alternatives : list string) (s : string) :
  regex_test alternatives s = true <->
  exists p, In p alternatives /\ contains p s.
Proof.
  unfold regex_test. rewrite existsb_exists.
  split; intros [p [Hin Hp]]; exists p; split; auto; now apply occurs_spec.
Qed.

End JsFacts.

(** ** The upload filter *)

Module UploadFacts.
Import Js Server Spec JsFacts.

Section WithPlatform.
Context `{Platform}.

Lemma fileFilter_spec (part : FilePart) :
  fileFilter part = Returned true <->
  mentions_allowed_type (toLowerCase (extname (originalname part))) /\
  mentions_allowed_type (mimetype part).
Proof.
  unfold fileFilter, mentions_allowed_type.
  rewrite <- !(regex_test_spec allowedTypes).
  destruct (regex_test allowedTypes (toLowerCase _));
    destruct (regex_test allowedTypes (mimetype part)); simpl;
    split; try discriminate; try tauto; intros [? ?]; discriminate.
Qed.

Lemma fileFilter_cases (part : FilePart) :
  fileFilter part = Returned true \/
  fileFilter part =
    Thrown "Only image files are allowed (jpeg, jpg, png, gif, webp)".
Proof. unfold fileFilter. destruct (_ && _); auto. Qed.

(** An upload that is refused answers through the error middleware and
    leaves the table as it was. *)
Lemma refused_upload_fails (env : Env) (w : World) (u : Upload) (m : string) :
  snd (upload env w u) = Thrown m ->
  table (fst (post_declarations env w u)) = table w /\
  snd (post_declarations env w u) = Responded (errorMiddleware env m).
Proof.
  unfold post_declarations, upload.
  destruct (screenshot u) as [part|]; [|discriminate].
  destruct (fileFilter part) as [b|m'].
  - destruct (size part <=? fileSize)%Z; [discriminate|].
    simpl. intros [= <-]. auto.
  - simpl. intros [= <-]. auto.
Qed.

(** What the upload stage tests.  A screenshot is let through exactly
    when one of the five names occurs in its lowercased extension and in
    its MIME type and its size is at most 5 * 1024 * 1024 bytes; otherwise
    the request fails (status 500 from the error middleware) and the table
    is unchanged. *)
Lemma upload_accepted_iff (env : Env) (w : World) (u : Upload)
    (part : FilePart) :
  screenshot u = Some part ->
  (accepted (upload env w u) <->
     mentions_allowed_type (toLowerCase (extname (originalname part))) /\
     mentions_allowed_type (mimetype part) /\
     (size part <= 5 * 1024 * 1024)%Z) /\
  (~ accepted (upload env w u) ->
     exists r, snd (post_declarations env w u) = Responded r /\
               status r = 500 /\ success r = false /\
               table (fst (post_declarations env w u)) = table w).
Proof.
  intros Hpart.
  assert (Hiff : accepted (upload env w u) <->
     mentions_allowed_type (toLowerCase (extname (originalname part))) /\
     mentions_allowed_type (mimetype part) /\
     (size part <= 5 * 1024 * 1024)%Z).
  { pose proof (fileFilter_spec part) as Hf.
    unfold accepted, upload. rewrite Hpart.
    destruct (fileFilter_cases part) as [Hok | Hno].
    - rewrite Hok. change (5 * 1024 * 1024)%Z with fileSize.
      destruct (Z.leb_spec (size part) fileSize) as [Hle|Hgt]; simpl.
      + split; [tauto | intros _; eauto].
      + split; [intros (req & f & Hreq & _); discriminate | lia].
    - rewrite Hno. simpl. split.
      + intros (req & f & Hreq & _). discriminate.
      + intros (H1 & H2 & _).
        assert (Hyes : fileFilter part = Returned true) by tauto.
        congruence. }
  split; [exact Hiff|].
  intros Hnot.
  destruct (snd (upload env w u)) as [req|m] eqn:Hup.
  - exfalso. apply Hnot. unfold accepted. rewrite Hup.
    revert Hup. unfold upload. rewrite Hpart.
    destruct (fileFilter part); [|discriminate].
    destruct (size part <=? fileSize)%Z; [|discriminate].
    simpl. intros [= <-]. eauto.
  - destruct (refused_upload_fails env w u m Hup) as [Htab Hres].
    exists (errorMiddleware env m). auto.
Qed.

End WithPlatform.

End UploadFacts.

(** ** The inserts of one submission *)

Module InsertFacts.
Import Js Server Spec.

Section Inserts.
Variable env : Env.
Variables userName assignmentTitle usagePurpose aiContent : string.
Variable screenshotPath : option string.

Let run := run_inserts env userName assignmentTitle usagePurpose aiContent
             screenshotPath.
Let rows := inserted_rows env userName assignmentTitle usagePurpose aiContent
              screenshotPath.

Lemma run_inserts_spec (tools : list JsValue) (i : nat) (w : World) :
  run i tools w =
  ({| table := table w ++ rows i (next_id w) tools;
      next_id := next_id w + Z.of_nat (List.length (rows i (next_id w) tools));
      uploads := uploads w |},
   first_fault env i tools).
Proof.
  subst run rows. revert i w.
  induction tools as [|tool rest IH]; intros i w; simpl.
  - rewrite app_nil_r, Z.add_0_r. now destruct w.
  - destruct (insert_fault env i) as [m|] eqn:Hfault.
    + rewrite IH. reflexivity.
    + rewrite IH. simpl. rewrite <- app_assoc. simpl.
      do 2 f_equal. lia.
Qed.

Lemma inserted_rows_share (tools : list JsValue) (i : nat) (first_id : Z) :
  Forall (shares userName assignmentTitle usagePurpose aiContent screenshotPath)
    (rows i first_id tools).
Proof.
  subst rows. revert i first_id.
  induction tools as [|tool rest IH]; intros i first_id; simpl.
  - constructor.
  - destruct (insert_fault env i).
    + apply IH.
    + constructor; [now repeat split | apply IH].
Qed.

Lemma inserted_rows_all (tools : list JsValue) (i : nat) (first_id : Z) :
  (forall j, (j < List.length tools)%nat -> insert_fault env (i + j) = None) ->
  map ai_tool (rows i first_id tools) = tools /\
  first_fault env i tools = None.
Proof.
  subst rows. revert i first_id.
  induction tools as [|tool rest IH]; intros i first_id Hok; simpl.
  - auto.
  - assert (H0 : insert_fault env i = None).
    { rewrite <- (Nat.add_0_r i). apply Hok. simpl. lia. }
    rewrite H0. simpl.
    destruct (IH (S i) (first_id + 1)%Z) as [Hmap Hfault].
    { intros j Hj. replace (S i + j)%nat with (i + S j)%nat by lia.
      apply Hok. simpl. lia. }
    now rewrite Hmap, Hfault.
Qed.

Lemma first_fault_Some (tools : list JsValue) (i : nat) (m : string) :
  first_fault env i tools = Some m ->
  exists j, (j < List.length tools)%nat /\ insert_fault env (i + j) = Some m.
Proof.
  revert i. induction tools as [|tool rest IH]; intros i; simpl.
  - discriminate.
  - destruct (insert_fault env i) as [m'|] eqn:Hfault.
    + intros [= ->]. exists 0%nat. rewrite Nat.add_0_r. split; [lia | easy].
    + intros Hrest. destruct (IH (S i) Hrest) as (j & Hj & Hm).
      exists (S j). replace (i + S j)%nat with (S i + j)%nat by lia.
      split; [lia | easy].
Qed.

Lemma first_fault_exists (tools : list JsValue) (i j : nat) (m : string) :
  (j < List.length tools)%nat -> insert_fault env (i + j) = Some m ->
  exists m', first_fault env i tools = Some m'.
Proof.
  revert i j. induction tools as [|tool rest IH]; intros i j Hj Hm; simpl.
  - simpl in Hj. lia.
  - destruct (insert_fault env i) as [m0|] eqn:Hfault; [eauto|].
    destruct j as [|j].
    + rewrite Nat.add_0_r in Hm. congruence.
    + apply (IH (S i) j); [simpl in Hj; lia|].
      now replace (S i + j)%nat with (i + S j)%nat by lia.
Qed.

End Inserts.

End InsertFacts.

(** ** The submission handler *)

Module PostFacts.
Import Js Server Spec InsertFacts.

(** Closes a goal that is one of the parts of a valid submission. *)
Ltac valid_part Hvalid := unfold valid_submission in Hvalid; tauto.

Section WithPlatform.
Context `{Platform}.

Lemma truthy_false (x : option string) : truthy x = false <-> falsy x.
Proof.
  unfold falsy. destruct x as [[|c s]|]; simpl; split; auto;
    try discriminate; intros [?|?]; discriminate.
Qed.

Lemma truthy_true (s : string) : truthy (Some s) = true <-> s <> "".
Proof. destruct s; simpl; split; congruence. Qed.

Lemma required_fields_Some (b : Body) (u a t p c : string) :
  required_fields b = Some (u, a, t, p, c) <->
  userName b = Some u /\ u <> "" /\ assignmentTitle b = Some a /\ a <> "" /\
  aiTools b = Some t /\ t <> "" /\ usagePurpose b = Some p /\ p <> "" /\
  aiContent b = Some c /\ c <> "".
Proof.
  unfold required_fields. rewrite <- !truthy_true.
  destruct (userName b) as [u'|], (assignmentTitle b) as [a'|],
    (aiTools b) as [t'|], (usagePurpose b) as [p'|], (aiContent b) as [c'|];
    try (split; [discriminate | intros (?&?&?&?&?&?&?&?&?&?); discriminate]).
  split.
  - destruct (truthy (Some u')) eqn:Hu, (truthy (Some a')) eqn:Ha,
      (truthy (Some t')) eqn:Ht, (truthy (Some p')) eqn:Hp,
      (truthy (Some c')) eqn:Hc; simpl; try discriminate.
    intros [= <- <- <- <- <-]. repeat split; assumption.
  - intros (Eu&Tu&Ea&Ta&Et&Tt&Ep&Tp&Ec&Tc).
    injection Eu as ->; injection Ea as ->; injection Et as ->;
      injection Ep as ->; injection Ec as ->.
    now rewrite Tu, Ta, Tt, Tp, Tc.
Qed.

Lemma required_fields_None (b : Body) :
  required_fields b = None <-> missing_field b.
Proof.
  unfold required_fields, missing_field. rewrite <- !truthy_false.
  destruct (userName b) as [u|], (assignmentTitle b) as [a|],
    (aiTools b) as [t|], (usagePurpose b) as [p|], (aiContent b) as [c|];
    simpl; try (split; [intros _; intuition congruence | reflexivity]).
  destruct u, a, t, p, c; simpl; intuition congruence.
Qed.

Lemma parse_tools_Some (t : string) (items : list JsValue) :
  parse_tools t = Some items <-> parses_as_nonempty_array t items.
Proof.
  unfold parse_tools, parses_as_nonempty_array.
  destruct (JSON_parse t) as [v|]; [|split; [discriminate | intros [? _]; discriminate]].
  destruct v as [ | | | |l| ]; simpl;
    try (split; [discriminate | intros [? _]; discriminate]).
  destruct l as [|x l]; simpl.
  - split; [discriminate | intros [[= <-] Hne]; congruence].
  - split; [intros [= <-]; split; congruence | intros [[= <-] _]; reflexivity].
Qed.

Lemma parse_tools_None (t : string) :
  parse_tools t = None <-> forall items, ~ parses_as_nonempty_array t items.
Proof.
  split.
  - intros Hnone items Hp. apply parse_tools_Some in Hp. congruence.
  - intros Hno. destruct (parse_tools t) as [items|] eqn:Hp; [|reflexivity].
    apply parse_tools_Some in Hp. now apply Hno in Hp.
Qed.

(** Every body is either rejected or valid, never both. *)
Lemma rejected_or_valid (b : Body) :
  rejected_submission b \/
  exists u a t p c items, valid_submission b u a t p c items.
Proof.
  destruct (required_fields b) as [[[[[u a] t] p] c]|] eqn:Hreq.
  - destruct (parse_tools t) as [items|] eqn:Hp.
    + right. exists u, a, t, p, c, items. unfold valid_submission.
      apply required_fields_Some in Hreq. apply parse_tools_Some in Hp. tauto.
    + left. right. intros t' Ht'.
      apply required_fields_Some in Hreq.
      assert (t' = t) as -> by (destruct Hreq as (_&_&_&_&E&_); congruence).
      now apply parse_tools_None.
  - left. left. now apply required_fields_None.
Qed.

Lemma rejected_not_valid (b : Body) (u a t p c : string)
    (items : list JsValue) :
  valid_submission b u a t p c items -> ~ rejected_submission b.
Proof.
  intros (Eu&Tu&Ea&Ta&Et&Tt&Ep&Tp&Ec&Tc&Hp) [Hmiss|Hbad].
  - unfold missing_field, falsy in Hmiss.
    rewrite Eu, Ea, Et, Ep, Ec in Hmiss.
    destruct Hmiss as [[?|?]|[[?|?]|[[?|?]|[[?|?]|[?|?]]]]]; congruence.
  - exact (Hbad t Et items Hp).
Qed.

Lemma unlink_stored (req : Request) (w : World) :
  stored req w -> unlink_uploaded req w = Returned (without_upload req w).
Proof.
  unfold stored, unlink_uploaded, without_upload, unlinkSync.
  intros Hst. destruct (file req) as [f|]; [|now destruct w].
  destruct (decide (path f ∈ uploads w)) as [_|Hno]; [reflexivity|].
  exfalso. apply Hno. now apply Hst.
Qed.

Lemma without_upload_gone (req : Request) (w : World) (f : File) :
  file req = Some f -> path f ∉ uploads (without_upload req w).
Proof.
  unfold without_upload. intros ->. simpl.
  rewrite elem_of_difference, elem_of_singleton. tauto.
Qed.

(** [upload.single] hands the handler a request whose file is stored. *)
Lemma upload_stored (env : Env) (w w' : World) (u : Upload) (req : Request) :
  upload env w u = (w', Returned req) -> stored req w'.
Proof.
  unfold upload, stored.
  destruct (screenshot u) as [part|].
  - destruct (fileFilter part); [|discriminate].
    destruct (size part <=? fileSize)%Z; [|discriminate].
    intros [= <- <-] f [= <-]. simpl.
    apply elem_of_union_r, elem_of_singleton_2. reflexivity.
  - intros [= <- <-] f. discriminate.
Qed.

(** The request names the file [f], which is in the uploads directory. *)
Lemma stored_file (req : Request) (w : World) (f : File) :
  file req = Some f -> path f ∈ uploads w -> stored req w.
Proof. intros Hf Hin f' Hf'. rewrite Hf in Hf'. now injection Hf' as <-. Qed.

End WithPlatform.

End PostFacts.

(** ** Theorems about [POST /api/declarations] *)

Module PostTheorems.
Import Js Server Spec InsertFacts PostFacts.

Section WithPlatform.
Context `{Platform}.

(** The handler on a valid submission: every insert is issued and the
    outcome depends on whether one of them was rejected. *)
Lemma post_valid (env : Env) (w : World) (req : Request)
    (u a t p c : string) (items : list JsValue) :
  valid_submission (body req) u a t p c items ->
  post_try env w req =
  match first_fault env 0 items with
  | Some m =>
      (fst (run_inserts env u a p c (screenshotPath req) 0 items w), Thrown m)
  | None =>
      (fst (run_inserts env u a p c (screenshotPath req) 0 items w),
       Returned (created (List.length items)))
  end.
Proof.
  intros Hvalid. unfold post_try.
  assert (Hreq : required_fields (body req) = Some (u, a, t, p, c))
    by (apply required_fields_Some; valid_part Hvalid).
  assert (Hp : parse_tools t = Some items)
    by (apply parse_tools_Some; valid_part Hvalid).
  rewrite Hreq, Hp, run_inserts_spec. simpl.
  now destruct (first_fault env 0 items).
Qed.

(** The handler on a rejected submission. *)
Lemma post_rejected (env : Env) (w : World) (req : Request) :
  rejected_submission (body req) -> stored req w ->
  exists text,
    post_try env w req = (without_upload req w, Returned (bad_request text)).
Proof.
  intros Hrej Hst. unfold post_try, reject.
  rewrite (unlink_stored req w Hst).
  destruct (required_fields (body req)) as [[[[[u a] t] p] c]|] eqn:Hreq;
    [|eauto].
  destruct (parse_tools t) as [items|] eqn:Hp; [|eauto].
  exfalso. apply required_fields_Some in Hreq. apply parse_tools_Some in Hp.
  apply (rejected_not_valid (body req) u a t p c items); [|exact Hrej].
  unfold valid_submission. tauto.
Qed.

(** C1.  A valid submission whose parsed [aiTools] has [k] elements, all of
    whose inserts the database accepts, adds exactly [k] rows to the
    table, one per element in order (duplicates included), which all
    share the user name, assignment title, purpose, content and
    screenshot path of the submission; the answer is 201 with the
    message [Successfully created k declaration(s)]. *)
Theorem post_creates_row_per_tool (env : Env) (w : World) (req : Request)
    (u a t p c : string) (items : list JsValue) :
  valid_submission (body req) u a t p c items ->
  (forall i, (i < List.length items)%nat -> insert_fault env i = None) ->
  exists rows,
    router_post env w req =
      ({| table := table w ++ rows;
          next_id := next_id w + Z.of_nat (List.length items);
          uploads := uploads w |},
       Responded
         {| status := 201; success := true;
            message :=
              Some ("Successfully created " ++ pretty (List.length items)
                    ++ " declaration(s)");
            error := None; count := None; data := None |}) /\
    List.length rows = List.length items /\
    map ai_tool rows = items /\
    Forall (shares u a p c (screenshotPath req)) rows.
Proof.
  intros Hvalid Hok.
  destruct (inserted_rows_all env u a p c (screenshotPath req) items 0
              (next_id w) Hok) as [Hmap Hfault].
  exists (inserted_rows env u a p c (screenshotPath req) 0 (next_id w) items).
  assert (Hlen : List.length
            (inserted_rows env u a p c (screenshotPath req) 0 (next_id w) items)
          = List.length items).
  { rewrite <- Hmap at 2. now rewrite length_map. }
  repeat split; auto.
  - unfold router_post. rewrite (post_valid env w req u a t p c items Hvalid).
    rewrite Hfault, run_inserts_spec. simpl. now rewrite Hlen.
  - apply inserted_rows_share.
Qed.

Lemma post_valid_outcome (env : Env) (w : World) (req : Request)
    (u a t p c : string) (items : list JsValue) :
  valid_submission (body req) u a t p c items -> stored req w ->
  let w1 := fst (run_inserts env u a p c (screenshotPath req) 0 items w) in
  router_post env w req =
  match first_fault env 0 items with
  | Some m => (without_upload req w1, Responded (creation_failure m))
  | None => (w1, Responded (created (List.length items)))
  end.
Proof.
  intros Hvalid Hst w1. unfold router_post.
  rewrite (post_valid env w req u a t p c items Hvalid). fold w1.
  destruct (first_fault env 0 items) as [m|]; [|reflexivity].
  assert (Hst1 : stored req w1).
  { subst w1. rewrite run_inserts_spec. exact Hst. }
  now rewrite (unlink_stored req w1 Hst1).
Qed.

Lemma post_rejected_outcome (env : Env) (w : World) (req : Request) :
  rejected_submission (body req) -> stored req w ->
  exists text,
    router_post env w req = (without_upload req w, Responded (bad_request text)).
Proof.
  intros Hrej Hst. destruct (post_rejected env w req Hrej Hst) as [text Htry].
  exists text. unfold router_post. now rewrite Htry.
Qed.

(** C2, as the handler has it.  With the uploaded file in place, the
    handler answers 400 exactly when a required field is missing or empty
    or [aiTools] does not parse as a non-empty array (the elements of the
    array are not inspected); a rejected submission leaves the table as it
    was; every other submission issues one insert per element and is
    answered 201 or 500. *)
Theorem post_400_iff_rejected (env : Env) (w : World) (req : Request) :
  stored req w ->
  ((exists r, snd (router_post env w req) = Responded r /\ status r = 400)
     <-> rejected_submission (body req)) /\
  (rejected_submission (body req) ->
     table (fst (router_post env w req)) = table w) /\
  (forall u a t p c items,
     valid_submission (body req) u a t p c items ->
     table (fst (router_post env w req)) =
       (table w ++ inserted_rows env u a p c (screenshotPath req) 0
                     (next_id w) items)%list /\
     exists r, snd (router_post env w req) = Responded r /\
               (status r = 201 \/ status r = 500)).
Proof.
  intros Hst.
  assert (Hvalid : forall u a t p c items,
     valid_submission (body req) u a t p c items ->
     table (fst (router_post env w req)) =
       (table w ++ inserted_rows env u a p c (screenshotPath req) 0
                     (next_id w) items)%list /\
     exists r, snd (router_post env w req) = Responded r /\
               (status r = 201 \/ status r = 500)).
  { intros u a t p c items Hv.
    rewrite (post_valid_outcome env w req u a t p c items Hv Hst).
    rewrite run_inserts_spec.
    destruct (first_fault env 0 items) as [m|]; simpl; eauto. }
  split; [|split; [|exact Hvalid]].
  - split.
    + intros (r & Hr & H400).
      destruct (rejected_or_valid (body req))
        as [Hrej|(u & a & t & p & c & items & Hv)]; [exact Hrej|].
      destruct (Hvalid u a t p c items Hv) as (_ & r' & Hr' & Hst').
      rewrite Hr in Hr'. injection Hr' as <-. lia.
    + intros Hrej.
      destruct (post_rejected_outcome env w req Hrej Hst) as [text ->].
      simpl. eauto.
  - intros Hrej.
    destruct (post_rejected_outcome env w req Hrej Hst) as [text ->].
    reflexivity.
Qed.

(** C9.  When a submission is rejected after its file was stored, the
    handler removes the file and answers 400: the file is no longer in
    the uploads directory, and nothing else has changed. *)
Theorem rejected_upload_removed (env : Env) (w : World) (req : Request)
    (f : File) :
  file req = Some f -> path f ∈ uploads w ->
  rejected_submission (body req) ->
  exists r,
    router_post env w req =
      ({| table := table w; next_id := next_id w;
          uploads := uploads w ∖ {[path f]} |}, Responded r) /\
    status r = 400 /\ success r = false /\
    path f ∉ uploads (fst (router_post env w req)).
Proof.
  intros Hf Hin Hrej.
  assert (Hst : stored req w) by exact (stored_file req w f Hf Hin).
  destruct (post_rejected_outcome env w req Hrej Hst) as [text Hpost].
  exists (bad_request text). rewrite Hpost.
  repeat split.
  - unfold without_upload. now rewrite Hf.
  - now apply without_upload_gone.
Qed.

(** C7, as the handler has it.  When the database rejects an insert of a
    valid submission after a file was stored, the rows of the accepted
    inserts stay in the table after the rows that were there (nothing is
    rolled back), the [catch] removes the stored file, and the answer is
    500 with the message of a rejected insert. *)
Theorem failed_insert_keeps_rows_removes_file (env : Env) (w : World)
    (req : Request) (f : File) (u a t p c : string) (items : list JsValue)
    (j : nat) (mj : string) :
  file req = Some f -> path f ∈ uploads w ->
  valid_submission (body req) u a t p c items ->
  (j < List.length items)%nat -> insert_fault env j = Some mj ->
  let rows :=
    inserted_rows env u a p c (Some ("/uploads/" ++ filename f)) 0
      (next_id w) items in
  exists m,
    first_fault env 0 items = Some m /\
    router_post env w req =
      ({| table := table w ++ rows;
          next_id := next_id w + Z.of_nat (List.length rows);
          uploads := uploads w ∖ {[path f]} |},
       Responded
         {| status := 500; success := false;
            message := Some "Failed to create declaration";
            error := Some (ErrMessage m); count := None; data := None |}) /\
    path f ∉ uploads (fst (router_post env w req)).
Proof.
  intros Hf Hin Hvalid Hj Hmj rows.
  destruct (first_fault_exists env items 0 j mj Hj Hmj) as [m Hfault].
  exists m. split; [exact Hfault|].
  assert (Hst : stored req w) by exact (stored_file req w f Hf Hin).
  assert (Hpath : screenshotPath req = Some ("/uploads/" ++ filename f)).
  { unfold screenshotPath. now rewrite Hf. }
  rewrite (post_valid_outcome env w req u a t p c items Hvalid Hst).
  rewrite Hfault, run_inserts_spec, Hpath. fold rows.
  split.
  - unfold without_upload. now rewrite Hf.
  - now apply without_upload_gone.
Qed.

(** The whole route on a submission that is rejected after its screenshot
    was accepted: 400, the table as it was, and no file left under the
    generated name. *)
Lemma route_rejected_no_orphan (env : Env) (w : World) (up : Upload)
    (part : FilePart) :
  screenshot up = Some part -> accepted (upload env w up) ->
  rejected_submission (fields up) ->
  exists r,
    snd (post_declarations env w up) = Responded r /\ status r = 400 /\
    table (fst (post_declarations env w up)) = table w /\
    (uploadDir ++ "/" ++ storage_filename env part)
      ∉ uploads (fst (post_declarations env w up)).
Proof.
  intros Hpart (req & f & Hreq & Hf) Hrej.
  unfold post_declarations.
  destruct (upload env w up) as [w' res] eqn:Hup. simpl in Hreq. subst res.
  pose proof (upload_stored env w w' up req Hup) as Hst.
  assert (Hshape : body req = fields up /\
                   path f = uploadDir ++ "/" ++ storage_filename env part /\
                   table w' = table w).
  { revert Hup. unfold upload. rewrite Hpart.
    destruct (fileFilter part); [|discriminate].
    destruct (size part <=? fileSize)%Z; [|discriminate].
    intros [= <- <-]. simpl in Hf. injection Hf as <-. auto. }
  destruct Hshape as (Hbody & Hpath & Htable).
  rewrite <- Hbody in Hrej.
  destruct (post_rejected_outcome env w' req Hrej Hst) as [text ->].
  exists (bad_request text). simpl. repeat split; [exact Htable|].
  rewrite <- Hpath.
  exact (without_upload_gone req w' f Hf).
Qed.

Lemma unlink_table (req : Request) (w w' : World) :
  unlink_uploaded req w = Returned w' -> table w' = table w.
Proof.
  unfold unlink_uploaded. destruct (file req) as [f|].
  - destruct (unlinkSync (path f) (uploads w)); [|discriminate].
    now intros [= <-].
  - now intros [= <-].
Qed.

(** Whatever the request, the handler leaves the rows of the table in
    place and adds, at most, the rows of a valid submission. *)
Lemma router_post_table (env : Env) (w : World) (req : Request) :
  table (fst (router_post env w req)) = table w \/
  exists u a t p c items first_id,
    valid_submission (body req) u a t p c items /\
    table (fst (router_post env w req)) =
      (table w
       ++ inserted_rows env u a p c (screenshotPath req) 0 first_id items)%list.
Proof.
  unfold router_post, post_try, reject.
  destruct (required_fields (body req)) as [[[[[u a] t] p] c]|] eqn:Hreq.
  - destruct (parse_tools t) as [items|] eqn:Hp.
    + right. exists u, a, t, p, c, items, (next_id w).
      apply required_fields_Some in Hreq. apply parse_tools_Some in Hp.
      split; [unfold valid_submission; tauto|].
      rewrite run_inserts_spec.
      destruct (first_fault env 0 items) as [m|]; [|reflexivity].
      match goal with
      | |- context [unlink_uploaded req ?w1] =>
          destruct (unlink_uploaded req w1) as [w2|m2] eqn:Hun
      end; [|reflexivity].
      simpl. now rewrite (unlink_table _ _ _ Hun).
    + left. destruct (unlink_uploaded req w) as [w1|m1] eqn:Hun.
      * simpl. now apply unlink_table in Hun.
      * rewrite Hun. reflexivity.
  - left. destruct (unlink_uploaded req w) as [w1|m1] eqn:Hun.
    + simpl. now apply unlink_table in Hun.
    + rewrite Hun. reflexivity.
Qed.

Lemma upload_table (env : Env) (w : World) (u : Upload) :
  table (fst (upload env w u)) = table w.
Proof.
  unfold upload. destruct (screenshot u) as [part|]; [|reflexivity].
  destruct (fileFilter part); [|reflexivity].
  now destruct (size part <=? fileSize)%Z.
Qed.

Lemma inserted_rows_named (env : Env) (u a p c : string)
    (sp : option string) (items : list JsValue) (i : nat) (first_id : Z) :
  u <> "" -> a <> "" ->
  Forall named (inserted_rows env u a p c sp i first_id items).
Proof.
  intros Hu Ha.
  eapply Forall_impl; [apply inserted_rows_share|].
  intros r (Hr1 & Hr2 & _). unfold named. now rewrite Hr1, Hr2.
Qed.

Lemma serve_named (env : Env) (w : World) (call : Call) :
  Forall named (table w) -> Forall named (table (serve env w call)).
Proof.
  intros Hw. destruct call as [|up]; simpl.
  - unfold router_get. now destruct (select_fault env).
  - unfold post_declarations.
    pose proof (upload_table env w up) as Hup.
    destruct (upload env w up) as [w' [req|m]]; simpl in Hup.
    + destruct (router_post_table env w' req)
        as [->|(u & a & t & p & c & items & first_id & Hv & ->)].
      * now rewrite Hup.
      * rewrite Hup. apply Forall_app. split; [exact Hw|].
        apply inserted_rows_named; valid_part Hv.
    + simpl. now rewrite Hup.
Qed.

(** For bodies whose fields are strings: after any sequence of calls of
    the API on an empty table, every row has a non-empty user name and a
    non-empty assignment title.  The handler tests the fields as they
    arrive; it does not trim them, so a name of white space passes. *)
Lemma persisted_rows_named (calls : list (Env * Call)) :
  Forall named (table (run calls initial)).
Proof.
  unfold run.
  assert (Hgen : forall w, Forall named (table w) ->
            Forall named
              (table (fold_left (fun w' ec => serve (fst ec) w' (snd ec))
                        calls w))).
  { induction calls as [|[env call] calls IH]; intros w Hw; simpl.
    - exact Hw.
    - apply IH. now apply serve_named. }
  apply Hgen. constructor.
Qed.

End WithPlatform.

End PostTheorems.

(** ** Theorems about [GET /api/declarations] *)

Module GetTheorems.
Import Js Server Spec.

Lemma insert_desc_Permutation (r : Row) (l : list Row) :
  Permutation (insert_desc r l) (r :: l).
Proof.
  induction l as [|x l IH]; simpl.
  - reflexivity.
  - destruct (created_at r <? created_at x)%Z.
    + rewrite IH. apply perm_swap.
    + reflexivity.
Qed.

Lemma order_by_Permutation (rows : list Row) :
  Permutation (order_by_created_at_desc rows) rows.
Proof.
  induction rows as [|r rows IH]; simpl.
  - reflexivity.
  - rewrite insert_desc_Permutation. now constructor.
Qed.

Lemma insert_desc_sorted (r : Row) (l : list Row) :
  StronglySorted newer_first l -> StronglySorted newer_first (insert_desc r l).
Proof.
  induction l as [|x l IH]; intros Hs; simpl.
  - repeat constructor.
  - inversion Hs as [|? ? Hl Hx]; subst.
    destruct (Z.ltb_spec (created_at r) (created_at x)) as [Hlt|Hge].
    + constructor; [now apply IH|].
      rewrite Forall_forall. intros y Hy.
      rewrite insert_desc_Permutation in Hy.
      apply elem_of_cons in Hy as [->|Hy].
      * unfold newer_first. lia.
      * rewrite Forall_forall in Hx. now apply Hx.
    + constructor; [exact Hs|].
      constructor; [unfold newer_first; lia|].
      eapply Forall_impl; [exact Hx|].
      unfold newer_first. intros y Hy. lia.
Qed.

Lemma order_by_sorted (rows : list Row) :
  StronglySorted newer_first (order_by_created_at_desc rows).
Proof.
  induction rows as [|r rows IH]; simpl.
  - constructor.
  - now apply insert_desc_sorted.
Qed.

(** Rows of one timestamp keep their storage order. *)
Lemma order_by_stable (rows : list Row) (ts : Z) :
  List.filter (fun r => (created_at r =? ts)%Z) (order_by_created_at_desc rows)
  = List.filter (fun r => (created_at r =? ts)%Z) rows.
Proof.
  induction rows as [|r rows IH]; simpl; [reflexivity|].
  rewrite <- IH. generalize (order_by_created_at_desc rows) as l.
  induction l as [|x l IHl]; simpl; [reflexivity|].
  destruct (Z.ltb_spec (created_at r) (created_at x)) as [Hlt|Hge]; simpl.
  - rewrite IHl.
    destruct (Z.eqb_spec (created_at r) ts) as [Hr|Hr];
      destruct (Z.eqb_spec (created_at x) ts) as [Hx|Hx];
      try reflexivity; lia.
  - reflexivity.
Qed.

(** C3.  When the query is fulfilled, [GET /api/declarations] answers with
    all the rows of the table and nothing else, from the most recent
    [created_at] to the oldest, and [count] is the number of rows in
    [data]; the table is left as it was. *)
Theorem get_returns_all_rows (env : Env) (w : World) :
  select_fault env = None ->
  exists rows,
    router_get env w =
      (w, Responded {| status := 200; success := true; message := None;
                       error := None; count := Some (List.length rows);
                       data := Some rows |}) /\
    Permutation rows (table w) /\
    StronglySorted newer_first rows.
Proof.
  intros Hok. exists (order_by_created_at_desc (table w)).
  unfold router_get. rewrite Hok.
  split; [reflexivity|].
  split; [apply order_by_Permutation | apply order_by_sorted].
Qed.

(** The 500 answers of both handlers carry the message of the error,
    whatever [NODE_ENV] is. *)
Lemma get_failure (env : Env) (w : World) (m : string) :
  select_fault env = Some m ->
  router_get env w =
    (w, Responded {| status := 500; success := false;
                     message := Some "Failed to fetch declarations";
                     error := Some (ErrMessage m);
                     count := None; data := None |}).
Proof. intros Hm. unfold router_get. now rewrite Hm. Qed.

End GetTheorems.

(** ** Theorems about the listing page *)

Module ClientTheorems.
Import Js Client ClientSpec.

Lemma in_first_seen (k : string) (keys : list string) :
  In k (first_seen keys) <-> In k keys.
Proof.
  induction keys as [|k0 keys IH]; simpl; [tauto|].
  rewrite List.filter_In, IH, negb_true_iff, String.eqb_neq.
  destruct (string_dec k0 k); intuition congruence.
Qed.

Lemma NoDup_first_seen (keys : list string) : List.NoDup (first_seen keys).
Proof.
  induction keys as [|k0 keys IH]; simpl; constructor.
  - rewrite List.filter_In, negb_true_iff, String.eqb_neq. tauto.
  - now apply List.NoDup_filter.
Qed.

Lemma first_seen_snoc (keys : list string) (k : string) :
  first_seen (keys ++ [k]) =
  if in_dec string_dec k keys then first_seen keys
  else (first_seen keys ++ [k])%list.
Proof.
  induction keys as [|k0 keys IH]; simpl; [reflexivity|].
  rewrite IH.
  destruct (in_dec string_dec k keys) as [Hin|Hout];
    destruct (string_dec k0 k) as [Heq|Hne]; try reflexivity.
  - subst k0. rewrite List.filter_app. simpl. rewrite String.eqb_refl. simpl.
    now rewrite app_nil_r.
  - rewrite List.filter_app. simpl.
    assert (Hk : String.eqb k k0 = false)
      by (apply String.eqb_neq; congruence).
    now rewrite Hk.
Qed.

Lemma with_key_snoc (k : string) (l : list Declaration) (d : Declaration) :
  with_key k (l ++ [d]) =
  if String.eqb (group_key d) k then (with_key k l ++ [d])%list
  else with_key k l.
Proof.
  unfold with_key. rewrite List.filter_app. simpl.
  destruct (String.eqb (group_key d) k); [reflexivity | apply app_nil_r].
Qed.

Lemma with_key_nil (k : string) (l : list Declaration) :
  ~ In k (map group_key l) -> with_key k l = [].
Proof.
  unfold with_key. induction l as [|d l IH]; simpl; [reflexivity|].
  intros Hout. destruct (String.eqb_spec (group_key d) k) as [Heq|Hne].
  - tauto.
  - apply IH. tauto.
Qed.

Lemma in_with_key (k : string) (l : list Declaration) (d : Declaration) :
  In d (with_key k l) <-> In d l /\ group_key d = k.
Proof. unfold with_key. now rewrite List.filter_In, String.eqb_eq. Qed.

(** Pushing a row into groups that hold the rows of [l] by key. *)
Lemma push_with_key (l : list Declaration) (d : Declaration)
    (keys : list string) :
  List.NoDup keys ->
  (~ In (group_key d) keys -> with_key (group_key d) l = []) ->
  push_declaration (group_key d) d (map (fun k => (k, with_key k l)) keys) =
  map (fun k => (k, with_key k (l ++ [d])))
    (if in_dec string_dec (group_key d) keys then keys
     else (keys ++ [group_key d])%list).
Proof.
  induction keys as [|k keys IH]; intros Hnd Hnew; simpl.
  - rewrite with_key_snoc, String.eqb_refl, Hnew; [reflexivity | tauto].
  - inversion Hnd as [|? ? Hk Hnd']; subst.
    destruct (String.eqb_spec k (group_key d)) as [->|Hne].
    + destruct (string_dec (group_key d) (group_key d)); [|congruence].
      simpl. rewrite with_key_snoc, String.eqb_refl. f_equal.
      apply map_ext_in. intros k' Hk'. rewrite with_key_snoc.
      destruct (String.eqb_spec (group_key d) k') as [Heq|_];
        [subst k'; contradiction | reflexivity].
    + destruct (string_dec k (group_key d)) as [?|Hne']; [congruence|].
      rewrite IH by (auto; intros Hout; apply Hnew; simpl; tauto).
      assert (Hk0 : with_key k (l ++ [d]) = with_key k l).
      { rewrite with_key_snoc.
        destruct (String.eqb_spec (group_key d) k); congruence. }
      destruct (in_dec string_dec (group_key d) keys); simpl;
        now rewrite Hk0.
Qed.

Lemma grouped_snoc (l : list Declaration) (d : Declaration) :
  groupedDeclarations (l ++ [d]) =
  push_declaration (group_key d) d (groupedDeclarations l).
Proof. unfold groupedDeclarations. now rewrite fold_left_app. Qed.

(** The groups are, for each key in first-seen order, the rows with that
    key in fetch order. *)
Lemma grouped_spec (l : list Declaration) :
  groupedDeclarations l =
  map (fun k => (k, with_key k l)) (first_seen (map group_key l)).
Proof.
  induction l as [|d l IH] using rev_ind; [reflexivity|].
  rewrite grouped_snoc, IH, map_app.
  change (map group_key [d]) with [group_key d].
  rewrite first_seen_snoc, push_with_key.
  - destruct (in_dec string_dec (group_key d) (first_seen (map group_key l)))
      as [Hin|Hout];
      destruct (in_dec string_dec (group_key d) (map group_key l))
        as [Hin'|Hout']; try reflexivity;
      rewrite in_first_seen in *; contradiction.
  - apply NoDup_first_seen.
  - rewrite in_first_seen. apply with_key_nil.
Qed.

Lemma push_concat (k : string) (d : Declaration) (acc : Groups) :
  Permutation (List.concat (Object_values (push_declaration k d acc)))
    (d :: List.concat (Object_values acc)).
Proof.
  unfold Object_values.
  induction acc as [|[k0 group] acc IH]; simpl; [reflexivity|].
  destruct (String.eqb k0 k); simpl.
  - rewrite <- app_assoc. simpl.
    rewrite <- Permutation_middle. reflexivity.
  - rewrite IH. rewrite <- Permutation_middle. reflexivity.
Qed.

Lemma grouped_Permutation (l : list Declaration) :
  Permutation (List.concat (Object_values (groupedDeclarations l))) l.
Proof.
  induction l as [|d l IH] using rev_ind; [reflexivity|].
  rewrite grouped_snoc, push_concat, IH.
  apply Permutation_cons_append.
Qed.

Lemma in_groups (l : list Declaration) (group : list Declaration) :
  In group (Object_values (groupedDeclarations l)) <->
  exists k, In k (map group_key l) /\ group = with_key k l.
Proof.
  unfold Object_values. rewrite grouped_spec, map_map. simpl.
  rewrite in_map_iff. setoid_rewrite in_first_seen.
  split; intros (k & H1 & H2); exists k; auto.
Qed.

Lemma same_group_iff (l : list Declaration) (d1 d2 : Declaration) :
  In d1 l -> In d2 l ->
  (same_group l d1 d2 <-> group_key d1 = group_key d2).
Proof.
  intros H1 H2. unfold same_group. split.
  - intros (group & Hg & Hd1 & Hd2).
    apply in_groups in Hg as (k & _ & ->).
    apply in_with_key in Hd1 as [_ ->]. now apply in_with_key in Hd2 as [_ ->].
  - intros Hkey. exists (with_key (group_key d1) l). repeat split.
    + apply in_groups. exists (group_key d1). split; [|reflexivity].
      now apply in_map.
    + now apply in_with_key.
    + now apply in_with_key.
Qed.

Lemma in_grouped (l : list Declaration) (k : string)
    (group : list Declaration) :
  In (k, group) (groupedDeclarations l) ->
  In k (map group_key l) /\ group = with_key k l.
Proof.
  rewrite grouped_spec, in_map_iff.
  intros (k' & [= <- <-] & Hk). now rewrite in_first_seen in Hk.
Qed.

(** Grouping by key string.  Grouping is a partition of the fetched rows:
    the groups together hold every row once, and a row is in the group of
    its own key and in no other; the keys of the groups are distinct and
    come in first-seen order; two fetched rows are in the same group
    exactly when their keys, the strings
    [user_name-assignment_title-created_at], are equal, which is the case
    whenever their triples are equal. *)
Lemma grouping_partition (l : list Declaration) :
  Permutation (List.concat (Object_values (groupedDeclarations l))) l /\
  (forall d k group,
     In d l -> In (k, group) (groupedDeclarations l) ->
     (In d group <-> k = group_key d)) /\
  map fst (groupedDeclarations l) = first_seen (map group_key l) /\
  List.NoDup (map fst (groupedDeclarations l)) /\
  (forall d1 d2, In d1 l -> In d2 l ->
     (same_group l d1 d2 <-> group_key d1 = group_key d2)) /\
  (forall d1 d2, In d1 l -> In d2 l ->
     triple d1 = triple d2 -> same_group l d1 d2).
Proof.
  assert (Hkeys : map fst (groupedDeclarations l)
                  = first_seen (map group_key l)).
  { rewrite grouped_spec, map_map. simpl. apply map_id. }
  split; [apply grouped_Permutation|].
  split.
  { intros d k group Hd Hg. apply in_grouped in Hg as [_ ->].
    rewrite in_with_key. intuition congruence. }
  split; [exact Hkeys|].
  split; [rewrite Hkeys; apply NoDup_first_seen|].
  split; [apply same_group_iff|].
  intros d1 d2 H1 H2 Ht. apply same_group_iff; auto.
  unfold triple in Ht. injection Ht as Hu Ha Hc.
  unfold group_key. now rewrite Hu, Ha, Hc.
Qed.

Lemma filter_head_find {A : Type} (f : A -> bool) (l : list A) (x : A)
    (rest : list A) :
  List.filter f l = x :: rest -> List.find f l = Some x.
Proof.
  induction l as [|y l IH]; simpl; [discriminate|].
  destruct (f y); [now intros [= ->] | exact IH].
Qed.

Section WithPlatform.
Context `{Platform}.

(** C10.  Every displayed group has a first row, which is the first row in
    fetch order with the key of the group; the card takes its title, user,
    date, purpose, content and screenshot from that row and its badges
    from the [ai_tool] of every row of the group; rows after the first
    contribute nothing else, so changing their other fields leaves the
    card as it is. *)
Theorem card_from_first_row (l : list Declaration) (group : list Declaration) :
  In group (Object_values (groupedDeclarations l)) ->
  exists first rest,
    group = first :: rest /\
    List.find (fun d => String.eqb (group_key d) (group_key first)) l
      = Some first /\
    render_card group =
      Some {| card_title := assignment_title first;
              card_user := user_name first;
              card_date := formatDate (created_at first);
              card_tools := map ai_tool group;
              card_purpose := usage_purpose first;
              card_content := ai_content first;
              card_screenshot :=
                match screenshot_path first with
                | Some EmptyString => None
                | other => other
                end |} /\
    forall rest', map ai_tool rest' = map ai_tool rest ->
                  render_card (first :: rest') = render_card group.
Proof.
  intros Hg. apply in_groups in Hg as (k & Hk & ->).
  destruct (with_key k l) as [|first rest] eqn:Hwk.
  - exfalso. apply in_map_iff in Hk as (d & Hd & Hin).
    assert (Hd' : In d (with_key k l)) by now apply in_with_key.
    now rewrite Hwk in Hd'.
  - exists first, rest.
    assert (Hfirst : group_key first = k).
    { assert (Hin : In first (with_key k l)) by (rewrite Hwk; now left).
      now apply in_with_key in Hin. }
    split; [reflexivity|]. split; [|split].
    + rewrite Hfirst. eapply filter_head_find. exact Hwk.
    + simpl. do 2 f_equal. now destruct (screenshot_path first) as [[|]|].
    + intros rest' Hrest. simpl. now rewrite Hrest.
Qed.

End WithPlatform.

End ClientTheorems.

(** ** The scenario, evaluated *)

Module Examples.
Import Js Server Spec Scenario.
Import RefPlatform.

Lemma alice_valid :
  valid_submission alice_body "Alice" "Essay 1" alice_tools "brainstorming"
    "outline" [JStr "ChatGPT"; JStr "Grammarly"].
Proof.
  unfold valid_submission, parses_as_nonempty_array.
  repeat split; try discriminate; vm_compute; reflexivity.
Defined.

Lemma shot_is_stored : path shot ∈ uploads shot_stored.
Proof.
  change (path shot ∈ ({[path shot]} : gset string)).
  apply elem_of_singleton_2. reflexivity.
Defined.

Lemma no_content_rejected : rejected_submission no_content_body.
Proof. left. do 4 right. right. reflexivity. Defined.

(** C1 on the scenario: two tools, two rows, 201. *)
Lemma post_creates_row_per_tool_witness :
  exists rows,
    router_post env_up initial alice =
      ({| table := table initial ++ rows;
          next_id := next_id initial + 2;
          uploads := uploads initial |},
       Responded
         {| status := 201; success := true;
            message := Some "Successfully created 2 declaration(s)";
            error := None; count := None; data := None |}) /\
    List.length rows = 2%nat /\
    map ai_tool rows = [JStr "ChatGPT"; JStr "Grammarly"] /\
    Forall (shares "Alice" "Essay 1" "brainstorming" "outline" None) rows.
Proof.
  apply (PostTheorems.post_creates_row_per_tool env_up initial alice
           "Alice" "Essay 1" alice_tools "brainstorming" "outline"
           [JStr "ChatGPT"; JStr "Grammarly"]).
  - exact alice_valid.
  - intros i _. reflexivity.
Defined.

(** C2: an array of numbers is not a list of strings, and is accepted. *)
Lemma array_of_numbers_accepted :
  JSON_parse "[1]" = Some (JArr [JNum "1"]) /\
  router_post env_up initial {| body := numbers_body; file := None |} =
    ({| table :=
          [{| id := 1; user_name := "Alice"; assignment_title := "Essay 1";
              ai_tool := JNum "1"; usage_purpose := "brainstorming";
              ai_content := "outline"; screenshot_path := None;
              created_at := 1700000000 |}];
        next_id := 2;
        uploads := ∅ |},
     Responded
       {| status := 201; success := true;
          message := Some "Successfully created 1 declaration(s)";
          error := None; count := None; data := None |}).
Proof. split; vm_compute; reflexivity. Qed.

(** C2 on a submission without content, its screenshot stored. *)
Lemma post_400_iff_rejected_witness :
  let req := {| body := no_content_body; file := Some shot |} in
  ((exists r, snd (router_post env_up shot_stored req) = Responded r /\
              status r = 400)
     <-> rejected_submission (body req)) /\
  (rejected_submission (body req) ->
     table (fst (router_post env_up shot_stored req)) = table shot_stored) /\
  (forall u a t p c items,
     valid_submission (body req) u a t p c items ->
     table (fst (router_post env_up shot_stored req)) =
       (table shot_stored
        ++ inserted_rows env_up u a p c (screenshotPath req) 0
             (next_id shot_stored) items)%list /\
     exists r, snd (router_post env_up shot_stored req) = Responded r /\
               (status r = 201 \/ status r = 500)).
Proof.
  intros req.
  apply (PostTheorems.post_400_iff_rejected env_up shot_stored req).
  intros f [= <-]. exact shot_is_stored.
Defined.

(** C3 on the table that Alice's submission leaves. *)
Lemma get_returns_all_rows_witness :
  let w := fst (router_post env_up initial alice) in
  exists rows,
    router_get env_up w =
      (w, Responded {| status := 200; success := true; message := None;
                       error := None; count := Some (List.length rows);
                       data := Some rows |}) /\
    Permutation rows (table w) /\
    StronglySorted newer_first rows.
Proof.
  intros w. apply (GetTheorems.get_returns_all_rows env_up w). reflexivity.
Defined.

(** The test of the upload stage on a PNG of 200 KiB. *)
Lemma upload_accepted_iff_witness :
  (accepted (upload env_up initial alice_upload) <->
     mentions_allowed_type (toLowerCase (extname (originalname png_part))) /\
     mentions_allowed_type (mimetype png_part) /\
     (size png_part <= 5 * 1024 * 1024)%Z) /\
  (~ accepted (upload env_up initial alice_upload) ->
     exists r, snd (post_declarations env_up initial alice_upload)
               = Responded r /\
               status r = 500 /\ success r = false /\
               table (fst (post_declarations env_up initial alice_upload))
               = table initial).
Proof.
  apply (UploadFacts.upload_accepted_iff env_up initial alice_upload png_part).
  reflexivity.
Defined.

(** The filter looks for the five names anywhere in the extension and in
    the MIME type: a file [notes.pngx] sent as [text/x-png] is stored. *)
Example unanchored_match_accepted :
  snd (upload env_up initial
         {| fields := alice_body;
            screenshot :=
              Some {| originalname := "notes.pngx"; mimetype := "text/x-png";
                      size := 12%Z |} |}) =
  Returned
    {| body := alice_body;
       file :=
         Some {| filename := "screenshot-1700000000000-123456789.pngx";
                 path :=
                   "server/uploads/screenshot-1700000000000-123456789.pngx" |}
    |}.
Proof. vm_compute. reflexivity. Qed.

(** C5.  A file [notes.pngx] sent as [text/x-png]: its lowercased
    extension [.pngx] is not on the allow-list and neither is its MIME
    type, yet the filter lets it through (the name [png] occurs in both)
    and the upload stage stores it and hands it to the handler. *)
Theorem unlisted_type_accepted :
  let part := {| originalname := "notes.pngx"; mimetype := "text/x-png";
                 size := 12%Z |} in
  let stored_as := "server/uploads/screenshot-1700000000000-123456789.pngx" in
  toLowerCase (extname (originalname part)) = ".pngx" /\
  ~ listed_extension ".pngx" /\
  ~ listed_mime "text/x-png" /\
  fileFilter part = Returned true /\
  upload env_up initial {| fields := alice_body; screenshot := Some part |} =
    ({| table := []; next_id := 1; uploads := {[stored_as]} |},
     Returned
       {| body := alice_body;
          file :=
            Some {| filename := "screenshot-1700000000000-123456789.pngx";
                    path := stored_as |} |}) /\
  stored_as
    ∈ uploads (fst (upload env_up initial
                      {| fields := alice_body; screenshot := Some part |})).
Proof.
  intros part stored_as.
  assert (Hup : upload env_up initial
                  {| fields := alice_body; screenshot := Some part |} =
    ({| table := []; next_id := 1; uploads := {[stored_as]} |},
     Returned
       {| body := alice_body;
          file :=
            Some {| filename := "screenshot-1700000000000-123456789.pngx";
                    path := stored_as |} |}))
    by (vm_compute; reflexivity).
  split; [vm_compute; reflexivity|].
  split.
  { intros (t & Hin & Heq). simpl in Hin.
    destruct Hin as [<-|[<-|[<-|[<-|[<-|[]]]]]]; discriminate. }
  split.
  { intros (t & Hin & Heq). simpl in Hin.
    destruct Hin as [<-|[<-|[<-|[<-|[<-|[]]]]]]; discriminate. }
  split; [vm_compute; reflexivity|].
  split; [exact Hup|].
  rewrite Hup. simpl. apply elem_of_singleton_2. reflexivity.
Qed.

(** A file of one byte more than 5 MiB is refused and the table is left
    alone. *)
Example oversized_refused :
  post_declarations env_up initial
    {| fields := alice_body;
       screenshot :=
         Some {| originalname := "big.png"; mimetype := "image/png";
                 size := (5 * 1024 * 1024 + 1)%Z |} |} =
  (initial,
   Responded {| status := 500; success := false;
                message := Some "Internal server error";
                error := None; count := None; data := None |}).
Proof. vm_compute. reflexivity. Qed.

(** C6.  A submission whose user name is a single space passes the guard
    of the handler, its rows are stored with that name, and trimming the
    name leaves nothing. *)
Lemma blank_user_name_persisted :
  map user_name
    (table (fst (router_post env_up initial
                   {| body := blank_body; file := None |})))
  = [" "; " "] /\
  trim " " = EmptyString.
Proof. split; vm_compute; reflexivity. Qed.

(** C7: the second insert fails after the screenshot was stored; the first
    row stays and the file is gone. *)
Lemma failed_insert_deletes_file :
  path shot ∈ uploads shot_stored /\
  router_post env_faulty shot_stored alice_with_shot =
    ({| table :=
          [{| id := 1; user_name := "Alice"; assignment_title := "Essay 1";
              ai_tool := JStr "ChatGPT"; usage_purpose := "brainstorming";
              ai_content := "outline";
              screenshot_path :=
                Some "/uploads/screenshot-1700000000000-123456789.png";
              created_at := 1700000000 |}];
        next_id := 2;
        uploads := ∅ |},
     Responded
       {| status := 500; success := false;
          message := Some "Failed to create declaration";
          error := Some (ErrMessage "Connection lost");
          count := None; data := None |}) /\
  path shot ∉ uploads (fst (router_post env_faulty shot_stored alice_with_shot)).
Proof.
  split; [exact shot_is_stored|].
  assert (Hpost : router_post env_faulty shot_stored alice_with_shot =
    ({| table :=
          [{| id := 1; user_name := "Alice"; assignment_title := "Essay 1";
              ai_tool := JStr "ChatGPT"; usage_purpose := "brainstorming";
              ai_content := "outline";
              screenshot_path :=
                Some "/uploads/screenshot-1700000000000-123456789.png";
              created_at := 1700000000 |}];
        next_id := 2;
        uploads := ∅ |},
     Responded
       {| status := 500; success := false;
          message := Some "Failed to create declaration";
          error := Some (ErrMessage "Connection lost");
          count := None; data := None |})) by (vm_compute; reflexivity).
  split; [exact Hpost|].
  rewrite Hpost. simpl. apply not_elem_of_empty.
Qed.

(** C7 on the same request. *)
Lemma failed_insert_keeps_rows_removes_file_witness :
  let rows :=
    inserted_rows env_faulty "Alice" "Essay 1" "brainstorming" "outline"
      (Some ("/uploads/" ++ filename shot)) 0 (next_id shot_stored)
      [JStr "ChatGPT"; JStr "Grammarly"] in
  exists m,
    first_fault env_faulty 0 [JStr "ChatGPT"; JStr "Grammarly"] = Some m /\
    router_post env_faulty shot_stored alice_with_shot =
      ({| table := table shot_stored ++ rows;
          next_id := next_id shot_stored + Z.of_nat (List.length rows);
          uploads := uploads shot_stored ∖ {[path shot]} |},
       Responded
         {| status := 500; success := false;
            message := Some "Failed to create declaration";
            error := Some (ErrMessage m); count := None; data := None |}) /\
    path shot
      ∉ uploads (fst (router_post env_faulty shot_stored alice_with_shot)).
Proof.
  apply (PostTheorems.failed_insert_keeps_rows_removes_file env_faulty
           shot_stored alice_with_shot shot "Alice" "Essay 1" alice_tools
           "brainstorming" "outline" [JStr "ChatGPT"; JStr "Grammarly"]
           1%nat "Connection lost").
  - reflexivity.
  - exact shot_is_stored.
  - exact alice_valid.
  - simpl. lia.
  - reflexivity.
Defined.

(** C8.  In a production process whose database refuses the connection,
    the 500 answers of [GET] and [POST /api/declarations] carry the
    message of the error, while the response helper of
    [utils/responses.js] and the error middleware of [index.js] leave it
    out. *)
Theorem error_detail_in_production :
  development env_faulty = false /\
  snd (router_get env_faulty initial) =
    Responded {| status := 500; success := false;
                 message := Some "Failed to fetch declarations";
                 error := Some (ErrMessage "connect ECONNREFUSED 127.0.0.1:3306");
                 count := None; data := None |} /\
  snd (router_post env_faulty initial alice) =
    Responded {| status := 500; success := false;
                 message := Some "Failed to create declaration";
                 error := Some (ErrMessage "Connection lost");
                 count := None; data := None |} /\
  error (serverError env_faulty "Failed to fetch declarations"
           (Some "connect ECONNREFUSED 127.0.0.1:3306")) = None /\
  error (errorMiddleware env_faulty "connect ECONNREFUSED 127.0.0.1:3306")
    = None.
Proof. repeat split; vm_compute; reflexivity. Qed.

(** C9 on a submission without content, its screenshot stored. *)
Lemma rejected_upload_removed_witness :
  let req := {| body := no_content_body; file := Some shot |} in
  exists r,
    router_post env_up shot_stored req =
      ({| table := table shot_stored; next_id := next_id shot_stored;
          uploads := uploads shot_stored ∖ {[path shot]} |}, Responded r) /\
    status r = 400 /\ success r = false /\
    path shot ∉ uploads (fst (router_post env_up shot_stored req)).
Proof.
  intros req.
  apply (PostTheorems.rejected_upload_removed env_up shot_stored req shot).
  - reflexivity.
  - exact shot_is_stored.
  - exact no_content_rejected.
Defined.

End Examples.

Module ClientExamples.
Import Js Client ClientSpec ClientScenario.
Import RefPlatform.

(** C4.  The rows of user [a-b] on assignment [c] and of user [a] on
    assignment [b-c], created at the same time, have different triples
    and the same key [a-b-c-...]: they land in one group, and the page
    shows a single card, under the first user's name and title, with the
    tools of both. *)
Lemma dashed_fields_share_group :
  In dash_user_row [dash_user_row; dash_title_row] /\
  In dash_title_row [dash_user_row; dash_title_row] /\
  Object_values (groupedDeclarations [dash_user_row; dash_title_row])
    = [[dash_user_row; dash_title_row]] /\
  same_group [dash_user_row; dash_title_row] dash_user_row dash_title_row /\
  triple dash_user_row <> triple dash_title_row /\
  declarations_list [dash_user_row; dash_title_row] =
    [Some {| card_title := "c"; card_user := "a-b"; card_date := stamp;
             card_tools := ["Claude"; "DALL-E"];
             card_purpose := "brainstorming"; card_content := "outline";
             card_screenshot := None |}].
Proof.
  split; [now left|]. split; [right; now left|].
  split; [vm_compute; reflexivity|]. split; [|split].
  - exists [dash_user_row; dash_title_row].
    split; [left; vm_compute; reflexivity|].
    split; [now left | right; now left].
  - discriminate.
  - vm_compute. reflexivity.
Qed.

(** The scenario: Alice's two rows make one card, titled Essay 1, with
    two badges. *)
Example alice_card :
  declarations_list [chatgpt_row; grammarly_row] =
  [Some {| card_title := "Essay 1"; card_user := "Alice";
           card_date := stamp; card_tools := ["ChatGPT"; "Grammarly"];
           card_purpose := "brainstorming"; card_content := "outline";
           card_screenshot := None |}].
Proof. reflexivity. Qed.

(** C10 on the card of Alice's two rows. *)
Lemma card_from_first_row_witness :
  let group := [chatgpt_row; grammarly_row] in
  exists first rest,
    group = first :: rest /\
    List.find (fun d => String.eqb (group_key d) (group_key first))
      [chatgpt_row; grammarly_row; dash_user_row] = Some first /\
    render_card group =
      Some {| card_title := assignment_title first;
              card_user := user_name first;
              card_date := formatDate (created_at first);
              card_tools := map ai_tool group;
              card_purpose := usage_purpose first;
              card_content := ai_content first;
              card_screenshot :=
                match screenshot_path first with
                | Some EmptyString => None
                | other => other
                end |} /\
    forall rest', map ai_tool rest' = map ai_tool rest ->
                  render_card (first :: rest') = render_card group.
Proof.
  intros group.
  apply (ClientTheorems.card_from_first_row
           [chatgpt_row; grammarly_row; dash_user_row] group).
  left. vm_compute. reflexivity.
Defined.

End ClientExamples.

(** ** More about the submission route *)

Module RouteFacts.
Import Js Server Spec MoreSpec InsertFacts PostFacts PostTheorems GetTheorems.

Section WithPlatform.
Context `{Platform}.

(** Every insert that the database accepts takes the next identifier. *)
Lemma inserted_rows_ids (env : Env) (u a p c : string) (sp : option string)
    (items : list JsValue) (i : nat) (first_id : Z) :
  let rows := inserted_rows env u a p c sp i first_id items in
  StronglySorted (fun r1 r2 => (id r1 < id r2)%Z) rows /\
  Forall (fun r => (first_id <= id r < first_id + Z.of_nat (List.length rows))%Z)
    rows.
Proof.
  revert i first_id. induction items as [|tool rest IH]; intros i first_id.
  - simpl. split; constructor.
  - simpl. destruct (insert_fault env i) as [m|].
    + apply IH.
    + destruct (IH (S i) (first_id + 1)%Z) as [Hs Hb]. simpl.
      split.
      * constructor; [exact Hs|].
        eapply Forall_impl; [exact Hb|]. simpl. intros r Hr. lia.
      * constructor; [simpl; lia|].
        eapply Forall_impl; [exact Hb|]. simpl. intros r Hr. lia.
Qed.

Lemma inserted_rows_length (env : Env) (u a p c : string)
    (sp : option string) (items : list JsValue) (i : nat) (first_id : Z) :
  List.length (inserted_rows env u a p c sp i first_id items) =
  List.length
    (List.filter (fun j => bool_decide (insert_fault env j = None))
       (seq i (List.length items))).
Proof.
  revert i first_id. induction items as [|tool rest IH]; intros i first_id.
  - reflexivity.
  - simpl. destruct (insert_fault env i) as [m|] eqn:Hf.
    + rewrite bool_decide_eq_false_2 by discriminate. apply IH.
    + rewrite bool_decide_eq_true_2 by reflexivity. simpl. now rewrite IH.
Qed.

Lemma first_fault_None (env : Env) (items : list JsValue) (i : nat) :
  first_fault env i items = None <->
  forall j, (j < List.length items)%nat -> insert_fault env (i + j) = None.
Proof.
  revert i. induction items as [|tool rest IH]; intros i; simpl.
  - split; [intros _ j Hj; lia | reflexivity].
  - destruct (insert_fault env i) as [m|] eqn:Hf.
    + split; [discriminate|]. intros Hall.
      specialize (Hall 0%nat). rewrite Nat.add_0_r in Hall.
      rewrite Hf in Hall. apply Hall. lia.
    + rewrite IH. split.
      * intros Hall [|j] Hj.
        -- now rewrite Nat.add_0_r.
        -- replace (i + S j)%nat with (S i + j)%nat by lia. apply Hall. lia.
      * intros Hall j Hj.
        replace (S i + j)%nat with (i + S j)%nat by lia. apply Hall. lia.
Qed.

Lemma unlink_next_id (req : Request) (w w' : World) :
  unlink_uploaded req w = Returned w' -> next_id w' = next_id w.
Proof.
  unfold unlink_uploaded. destruct (file req) as [f|].
  - destruct (unlinkSync (path f) (uploads w)); [|discriminate].
    now intros [= <-].
  - now intros [= <-].
Qed.

Lemma unlink_uploads (req : Request) (w w' : World) :
  unlink_uploaded req w = Returned w' -> uploads w' ⊆ uploads w.
Proof.
  unfold unlink_uploaded, unlinkSync. destruct (file req) as [f|].
  - destruct (decide (path f ∈ uploads w)); [|discriminate].
    intros [= <-]. simpl. apply subseteq_difference_l. reflexivity.
  - now intros [= <-].
Qed.

(** What the handler does to the table and to the identifier counter,
    whatever the request and whatever state the uploads are in. *)
Lemma router_post_store (env : Env) (w : World) (req : Request) :
  (table (fst (router_post env w req)) = table w /\
   next_id (fst (router_post env w req)) = next_id w) \/
  exists u a t p c items,
    valid_submission (body req) u a t p c items /\
    let rows :=
      inserted_rows env u a p c (screenshotPath req) 0 (next_id w) items in
    table (fst (router_post env w req)) = (table w ++ rows)%list /\
    next_id (fst (router_post env w req))
    = (next_id w + Z.of_nat (List.length rows))%Z.
Proof.
  unfold router_post, post_try, reject.
  destruct (required_fields (body req)) as [[[[[u a] t] p] c]|] eqn:Hreq.
  - destruct (parse_tools t) as [items|] eqn:Hp.
    + right. exists u, a, t, p, c, items.
      apply required_fields_Some in Hreq. apply parse_tools_Some in Hp.
      split; [unfold valid_submission; tauto|].
      rewrite run_inserts_spec.
      destruct (first_fault env 0 items) as [m|]; [|simpl; auto].
      match goal with
      | |- context [unlink_uploaded req ?w1] =>
          destruct (unlink_uploaded req w1) as [w2|m2] eqn:Hun
      end; [|simpl; auto].
      simpl.
      rewrite (unlink_table _ _ _ Hun), (unlink_next_id _ _ _ Hun). auto.
    + left. destruct (unlink_uploaded req w) as [w1|m1] eqn:Hun.
      * simpl. split; [now apply unlink_table in Hun
                      | now apply unlink_next_id in Hun].
      * rewrite Hun. simpl. auto.
  - left. destruct (unlink_uploaded req w) as [w1|m1] eqn:Hun.
    + simpl. split; [now apply unlink_table in Hun
                    | now apply unlink_next_id in Hun].
    + rewrite Hun. simpl. auto.
Qed.

Lemma upload_next_id (env : Env) (w : World) (u : Upload) :
  next_id (fst (upload env w u)) = next_id w.
Proof.
  unfold upload. destruct (screenshot u) as [part|]; [|reflexivity].
  destruct (fileFilter part); [|reflexivity].
  now destruct (size part <=? fileSize)%Z.
Qed.

(** One call of the API appends rows to the table and changes none. *)
Lemma serve_store (env : Env) (w : World) (call : Call) :
  exists rows,
    table (serve env w call) = (table w ++ rows)%list /\
    next_id (serve env w call) = (next_id w + Z.of_nat (List.length rows))%Z /\
    StronglySorted (fun r1 r2 => (id r1 < id r2)%Z) rows /\
    Forall (fun r => (next_id w <= id r)%Z) rows /\
    Forall (fun r => (id r < next_id (serve env w call))%Z) rows.
Proof.
  assert (Hnil : forall w', table w' = table w -> next_id w' = next_id w ->
            exists rows, table w' = (table w ++ rows)%list /\
              next_id w' = (next_id w + Z.of_nat (List.length rows))%Z /\
              StronglySorted (fun r1 r2 => (id r1 < id r2)%Z) rows /\
              Forall (fun r => (next_id w <= id r)%Z) rows /\
              Forall (fun r => (id r < next_id w')%Z) rows).
  { intros w' Ht Hn. exists []. rewrite app_nil_r. simpl.
    repeat split; auto; try constructor. lia. }
  destruct call as [|up]; simpl.
  - apply Hnil; unfold router_get; now destruct (select_fault env).
  - unfold post_declarations.
    pose proof (upload_table env w up) as Hut.
    pose proof (upload_next_id env w up) as Hun.
    destruct (upload env w up) as [w' [req|m]]; simpl in Hut, Hun;
      [|now apply Hnil].
    destruct (router_post_store env w' req)
      as [[Ht Hn]|(u & a & t & p & c & items & Hv & Ht & Hn)].
    + apply Hnil; congruence.
    + rewrite Hut, Hun in *.
      destruct (inserted_rows_ids env u a p c (screenshotPath req) items 0
                  (next_id w)) as [Hs Hb].
      eexists. split; [exact Ht|]. split; [exact Hn|]. split; [exact Hs|].
      rewrite Hn.
      split; (eapply Forall_impl; [exact Hb|]); simpl; intros r Hr; lia.
Qed.

(** X1.  The store is append-only: after any sequence of calls of the API,
    the rows that were in the table are still there, unchanged and in
    front, followed by the rows added since. *)
Theorem table_append_only (calls : list (Env * Call)) (w : World) :
  exists rows, table (run calls w) = (table w ++ rows)%list.
Proof.
  unfold run. revert w.
  induction calls as [|[env call] calls IH]; intros w; simpl.
  - exists []. now rewrite app_nil_r.
  - destruct (IH (serve env w call)) as [rows2 H2].
    destruct (serve_store env w call) as (rows1 & H1 & _).
    exists (rows1 ++ rows2)%list. now rewrite H2, H1, app_assoc.
Qed.

Lemma serve_ids (env : Env) (w : World) (call : Call) :
  ids_in_order w -> ids_in_order (serve env w call).
Proof.
  intros [Hs Hb].
  destruct (serve_store env w call) as (rows & Ht & Hn & Hrs & Hlo & Hhi).
  unfold ids_in_order. rewrite Ht. split.
  - clear Ht Hn Hhi. induction (table w) as [|x l IHl]; simpl; [exact Hrs|].
    inversion Hs as [|? ? Hl Hx]; subst.
    inversion Hb as [|? ? Hxb Hlb]; subst.
    constructor; [now apply IHl|].
    apply Forall_app. split; [exact Hx|].
    eapply Forall_impl; [exact Hlo|]. simpl. intros r Hr. lia.
  - apply Forall_app. split; [|exact Hhi].
    eapply Forall_impl; [exact Hb|]. simpl. intros r Hr. lia.
Qed.

(** X2.  After any sequence of calls on an empty table, the identifiers of
    the rows increase strictly in storage order (so no two rows share
    one) and stay below the counter of the next insert. *)
Theorem ids_increase (calls : list (Env * Call)) :
  StronglySorted (fun r1 r2 => (id r1 < id r2)%Z) (table (run calls initial)) /\
  Forall (fun r => (id r < next_id (run calls initial))%Z)
    (table (run calls initial)).
Proof.
  change (ids_in_order (run calls initial)). unfold run.
  assert (Hgen : forall w, ids_in_order w ->
            ids_in_order
              (fold_left (fun w' ec => serve (fst ec) w' (snd ec)) calls w)).
  { induction calls as [|[env call] calls IH]; intros w Hw; simpl.
    - exact Hw.
    - apply IH. now apply serve_ids. }
  apply Hgen. split; constructor.
Qed.

(** X3.  The route always answers: whatever the upload and the body, the
    request gets a response, its status is 201, 400 or 500, and the body
    says [success: true] exactly when the status is 201. *)
Theorem route_always_responds (env : Env) (w : World) (up : Upload) :
  exists r,
    snd (post_declarations env w up) = Responded r /\
    (status r = 201%nat \/ status r = 400%nat \/ status r = 500%nat) /\
    (success r = true <-> status r = 201%nat).
Proof.
  unfold post_declarations.
  destruct (upload env w up) as [w' [req|m]] eqn:Hup.
  - pose proof (upload_stored env w w' up req Hup) as Hst.
    destruct (rejected_or_valid (body req))
      as [Hrej|(u & a & t & p & c & items & Hv)].
    + destruct (post_rejected_outcome env w' req Hrej Hst) as [text ->].
      exists (bad_request text). simpl. intuition (try discriminate; lia).
    + rewrite (post_valid_outcome env w' req u a t p c items Hv Hst).
      destruct (first_fault env 0 items) as [m|]; eexists;
        (split; [reflexivity|]); simpl; intuition (try discriminate; lia).
  - exists (errorMiddleware env m). simpl.
    intuition (try discriminate; lia).
Qed.

(** X4.  A valid submission whose file, if any, is in place is answered
    201 exactly when the database accepts every insert and 500 exactly
    when it rejects one; in both cases the table grows by one row for each
    accepted insert. *)
Theorem created_iff_all_accepted (env : Env) (w : World) (req : Request)
    (u a t p c : string) (items : list JsValue) :
  valid_submission (body req) u a t p c items -> stored req w ->
  exists r rows,
    snd (router_post env w req) = Responded r /\
    table (fst (router_post env w req)) = (table w ++ rows)%list /\
    (status r = 201%nat <->
       forall i, (i < List.length items)%nat -> insert_fault env i = None) /\
    (status r = 500%nat <->
       exists i, (i < List.length items)%nat /\ insert_fault env i <> None) /\
    List.length rows =
      List.length
        (List.filter (fun i => bool_decide (insert_fault env i = None))
           (seq 0 (List.length items))).
Proof.
  intros Hv Hst.
  pose proof (first_fault_None env items 0) as Hnone.
  rewrite (post_valid_outcome env w req u a t p c items Hv Hst).
  rewrite run_inserts_spec.
  destruct (first_fault env 0 items) as [m|] eqn:Hfault.
  - exists (creation_failure m),
      (inserted_rows env u a p c (screenshotPath req) 0 (next_id w) items).
    split; [reflexivity|]. split; [reflexivity|]. simpl.
    split; [|split; [|apply inserted_rows_length]].
    + split; [discriminate|]. intros Hall.
      apply Hnone in Hall. discriminate.
    + split; [|reflexivity]. intros _.
      destruct (first_fault_Some env items 0 m Hfault) as (j & Hj & Hm).
      exists j. split; [exact Hj|]. simpl in Hm. congruence.
  - exists (created (List.length items)),
      (inserted_rows env u a p c (screenshotPath req) 0 (next_id w) items).
    split; [reflexivity|]. split; [reflexivity|]. simpl.
    split; [|split; [|apply inserted_rows_length]].
    + split; [|reflexivity]. intros _. now apply Hnone.
    + split; [discriminate|]. intros (i & Hi & Hno).
      destruct Hnone as [Hall _]. now specialize (Hall eq_refl i Hi).
Qed.

(** X5.  The handler never writes a file: after it, the uploads directory
    holds no path that it did not hold before, and on a 201 it is exactly
    as it was. *)
Theorem handler_creates_no_file (env : Env) (w : World) (req : Request) :
  uploads (fst (router_post env w req)) ⊆ uploads w /\
  (forall r, snd (router_post env w req) = Responded r ->
             status r = 201%nat ->
             uploads (fst (router_post env w req)) = uploads w).
Proof.
  unfold router_post, post_try, reject.
  destruct (required_fields (body req)) as [[[[[u a] t] p] c]|] eqn:Hreq.
  - destruct (parse_tools t) as [items|] eqn:Hp.
    + rewrite run_inserts_spec.
      destruct (first_fault env 0 items) as [m|].
      * match goal with
        | |- context [unlink_uploaded req ?w1] =>
            destruct (unlink_uploaded req w1) as [w2|m2] eqn:Hun
        end; simpl.
        -- split; [exact (unlink_uploads _ _ _ Hun)|].
           intros r [= <-]. discriminate.
        -- split; [reflexivity | intros r; discriminate].
      * simpl. split; [reflexivity | auto].
    + destruct (unlink_uploaded req w) as [w1|m1] eqn:Hun; simpl.
      * split; [exact (unlink_uploads _ _ _ Hun)|].
        intros r [= <-]. discriminate.
      * rewrite Hun. simpl. split; [reflexivity | intros r; discriminate].
  - destruct (unlink_uploaded req w) as [w1|m1] eqn:Hun; simpl.
    + split; [exact (unlink_uploads _ _ _ Hun)|].
      intros r [= <-]. discriminate.
    + rewrite Hun. simpl. split; [reflexivity | intros r; discriminate].
Qed.

(** X6.  When the route answers 201 to a submission that carries a
    screenshot, the file is in the uploads directory under its generated
    name, and every row the submission added refers to it as
    [/uploads/<that name>]. *)
Theorem created_rows_refer_to_stored_file (env : Env) (w : World)
    (up : Upload) (part : FilePart) (r : Response) :
  screenshot up = Some part ->
  snd (post_declarations env w up) = Responded r -> status r = 201%nat ->
  (uploadDir ++ "/" ++ storage_filename env part)
    ∈ uploads (fst (post_declarations env w up)) /\
  exists rows,
    rows <> [] /\
    table (fst (post_declarations env w up)) = (table w ++ rows)%list /\
    Forall (fun row =>
              screenshot_path row
              = Some ("/uploads/" ++ storage_filename env part)) rows.
Proof.
  intros Hpart. unfold post_declarations.
  destruct (upload env w up) as [w' [req|m]] eqn:Hup;
    [|simpl; intros [= <-]; discriminate].
  pose proof (upload_stored env w w' up req Hup) as Hst.
  assert (Hshape :
    file req = Some {| filename := storage_filename env part;
                       path := uploadDir ++ "/" ++ storage_filename env part |}
    /\ table w' = table w
    /\ (uploadDir ++ "/" ++ storage_filename env part) ∈ uploads w').
  { revert Hup. unfold upload. rewrite Hpart.
    destruct (fileFilter part); [|discriminate].
    destruct (size part <=? fileSize)%Z; [|discriminate].
    intros [= <- <-]. simpl. repeat split.
    apply elem_of_union_r, elem_of_singleton_2. reflexivity. }
  destruct Hshape as (Hfile & Htable & Hin).
  destruct (rejected_or_valid (body req))
    as [Hrej|(u & a & t & p & c & items & Hv)].
  - destruct (post_rejected_outcome env w' req Hrej Hst) as [text ->].
    simpl. intros [= <-]. discriminate.
  - rewrite (post_valid_outcome env w' req u a t p c items Hv Hst).
    rewrite run_inserts_spec.
    destruct (first_fault env 0 items) as [m|] eqn:Hfault;
      [simpl; intros [= <-]; discriminate|].
    simpl. intros _ _. split; [exact Hin|].
    exists (inserted_rows env u a p c (screenshotPath req) 0 (next_id w') items).
    assert (Hall : forall j, (j < List.length items)%nat ->
                             insert_fault env (0 + j) = None)
      by now apply first_fault_None.
    destruct (inserted_rows_all env u a p c (screenshotPath req) items 0
                (next_id w') Hall) as [Hmap _].
    split; [|split].
    + intros Hnil. rewrite Hnil in Hmap. simpl in Hmap.
      destruct Hv as (_&_&_&_&_&_&_&_&_&_&_&Hne). congruence.
    + now rewrite Htable.
    + eapply Forall_impl; [apply inserted_rows_share|].
      intros row (_ & _ & _ & _ & Hsp). rewrite Hsp.
      unfold screenshotPath. now rewrite Hfile.
Qed.

(** X7.  Retrieval after a submission: once a valid submission of [k]
    tools has been answered 201, a fulfilled [GET /api/declarations]
    returns the rows that were there together with [k] new rows, one per
    tool, and its [count] has grown by [k]. *)
Theorem get_after_post (env env' : Env) (w : World) (req : Request)
    (u a t p c : string) (items : list JsValue) :
  valid_submission (body req) u a t p c items ->
  (forall i, (i < List.length items)%nat -> insert_fault env i = None) ->
  select_fault env' = None ->
  exists rows fetched,
    snd (router_post env w req) = Responded (created (List.length items)) /\
    map ai_tool rows = items /\
    snd (router_get env' (fst (router_post env w req))) =
      Responded {| status := 200; success := true; message := None;
                   error := None;
                   count := Some (List.length (table w) + List.length items)%nat;
                   data := Some fetched |} /\
    Permutation fetched (table w ++ rows).
Proof.
  intros Hv Hok Hsel.
  destruct (inserted_rows_all env u a p c (screenshotPath req) items 0
              (next_id w) Hok) as [Hmap Hfault].
  exists (inserted_rows env u a p c (screenshotPath req) 0 (next_id w) items).
  unfold router_post. rewrite (post_valid env w req u a t p c items Hv).
  rewrite Hfault, run_inserts_spec. simpl.
  unfold router_get. rewrite Hsel. simpl.
  eexists. split; [reflexivity|]. split; [exact Hmap|].
  split; [|apply order_by_Permutation].
  do 3 f_equal.
  rewrite (Permutation_length (order_by_Permutation _)), length_app.
  rewrite <- Hmap at 2. now rewrite length_map.
Qed.

End WithPlatform.

End RouteFacts.

(** ** The declaration form *)

Module FormFacts.
Import Js Form MoreSpec.

Lemma includes_In (tools : list string) (tool : string) :
  includes tools tool = true <-> In tool tools.
Proof.
  unfold includes. rewrite existsb_exists. split.
  - intros (t & Hin & Heq). apply String.eqb_eq in Heq. now subst.
  - intros Hin. exists tool. split; [exact Hin | apply String.eqb_refl].
Qed.

(** X8.  Clicking a check box flips that tool and no other: after
    [handleToolChange] the tool is selected exactly when it was not
    before, and every other tool is selected exactly when it was. *)
Theorem toggle_flips_one (tool : string) (st : State) :
  let before := aiTools (formData st) in
  let after := aiTools (formData (handleToolChange tool st)) in
  (In tool after <-> ~ In tool before) /\
  (forall t, t <> tool -> (In t after <-> In t before)).
Proof.
  simpl. unfold toggle.
  destruct (includes (aiTools (formData st)) tool) eqn:Hinc.
  - apply includes_In in Hinc. split.
    + rewrite List.filter_In, negb_true_iff, String.eqb_neq. tauto.
    + intros t Hne.
      rewrite List.filter_In, negb_true_iff, String.eqb_neq. tauto.
  - assert (Hout : ~ In tool (aiTools (formData st))).
    { intros Hin. apply includes_In in Hin. congruence. }
    split.
    + rewrite in_app_iff. simpl. tauto.
    + intros t Hne. rewrite in_app_iff. simpl. intuition congruence.
Qed.

Lemma toggle_NoDup (tool : string) (tools : list string) :
  List.NoDup tools -> List.NoDup (toggle tool tools).
Proof.
  intros Hnd. unfold toggle.
  destruct (includes tools tool) eqn:Hinc.
  - now apply List.NoDup_filter.
  - apply List.NoDup_app; [exact Hnd | repeat constructor; simpl; tauto |].
    intros t Ht [<-|[]]. apply includes_In in Ht. congruence.
Qed.

Section WithPlatform.
Context `{Platform} `{Stringify}.

Lemma validateForm_formData (st : State) :
  formData (snd (validateForm st)) = formData st.
Proof.
  unfold validateForm.
  repeat match goal with
         | |- context [if ?b then _ else _] => destruct b
         end; reflexivity.
Qed.

Lemma handleSubmit_formData (post : SubmitData -> PostResult) (st : State) :
  formData (fst (handleSubmit post st)) = formData st.
Proof.
  unfold handleSubmit.
  pose proof (validateForm_formData (setError EmptyString st)) as Hfd.
  destruct (validateForm (setError EmptyString st)) as [[|] st1];
    simpl in Hfd; [|exact Hfd].
  destruct (post (submitData (formData st1))) as [[|]|m]; exact Hfd.
Qed.

Lemma handle_aiTools (st : State) (e : Event) :
  aiTools (formData (handle st e)) = aiTools (formData st) \/
  exists tool, aiTools (formData (handle st e))
               = toggle tool (aiTools (formData st)).
Proof.
  destruct e as [input value|tool|files0|result| |result]; simpl.
  - now left.
  - right. now exists tool.
  - left. unfold handleFileChange. destruct files0 as [file|]; [|reflexivity].
    destruct (negb _); [reflexivity|].
    now destruct (maxFileSize <? size file)%Z.
  - now left.
  - now left.
  - left. now rewrite handleSubmit_formData.
Qed.

(** X9.  However the form is used, the list of checked tools never holds
    a tool twice. *)
Theorem checked_tools_distinct (events : list Event) :
  List.NoDup (aiTools (formData (after events))).
Proof.
  unfold after.
  assert (Hgen : forall st, List.NoDup (aiTools (formData st)) ->
            List.NoDup (aiTools (formData (fold_left handle events st)))).
  { induction events as [|e events IH]; intros st Hst; simpl; [exact Hst|].
    apply IH. destruct (handle_aiTools st e) as [->|[tool ->]];
      [exact Hst | now apply toggle_NoDup]. }
  apply Hgen. constructor.
Qed.

Lemma handle_screenshot_checked (st : State) (e : Event) :
  screenshot_checked st -> screenshot_checked (handle st e).
Proof.
  unfold screenshot_checked. intros Hst.
  destruct e as [input value|tool|files0|result| |result]; simpl;
    try exact Hst.
  - unfold handleFileChange. destruct files0 as [file|]; [|exact Hst].
    destruct (String.prefix "image/" (type file)) eqn:Htype; simpl;
      [|exact Hst].
    destruct (Z.ltb_spec maxFileSize (size file)) as [Hbig|Hok]; simpl;
      [exact Hst|].
    intros f [= <-]. split; [exact Htype | exact Hok].
  - discriminate.
  - rewrite handleSubmit_formData. exact Hst.
Qed.

Lemma fold_screenshot_checked (events : list Event) (st : State) :
  screenshot_checked st -> screenshot_checked (fold_left handle events st).
Proof.
  revert st. induction events as [|e events IH]; intros st Hst; simpl.
  - exact Hst.
  - apply IH. now apply handle_screenshot_checked.
Qed.

(** X10.  However the form is used, the screenshot it holds (if any) has
    a type that starts with [image/] and a size of at most 5 * 1024 * 1024
    bytes: a file that fails either check never replaces the screenshot. *)
Theorem form_screenshot_checked (events : list Event) (f : ClientFile) :
  screenshot (formData (after events)) = Some f ->
  String.prefix "image/" (type f) = true /\ (size f <= 5 * 1024 * 1024)%Z.
Proof.
  assert (Hinit : screenshot_checked initial) by (intros f0; discriminate).
  pose proof (fold_screenshot_checked events initial Hinit) as Hall.
  intros Hf. unfold after in Hf. exact (Hall f Hf).
Qed.

(** A file that [handleFileChange] refuses changes nothing but the error
    message, which names the failed check; an accepted file becomes the
    screenshot and clears the message. *)
Lemma handleFileChange_cases (file : ClientFile) (st : State) :
  let st' := handleFileChange (Some file) st in
  loading st' = loading st /\
  screenshotPreview st' = screenshotPreview st /\
  (String.prefix "image/" (type file) = false ->
     formData st' = formData st /\ error st' = "Please upload an image file") /\
  (String.prefix "image/" (type file) = true ->
   (5 * 1024 * 1024 < size file)%Z ->
     formData st' = formData st /\
     error st' = "File size must be less than 5MB") /\
  (String.prefix "image/" (type file) = true ->
   (size file <= 5 * 1024 * 1024)%Z ->
     screenshot (formData st') = Some file /\ error st' = EmptyString).
Proof.
  simpl. unfold handleFileChange.
  destruct (String.prefix "image/" (type file)) eqn:Htype; simpl.
  - destruct (Z.ltb_spec maxFileSize (size file)) as [Hbig|Hok]; simpl;
      unfold maxFileSize in *; repeat split; intros; try discriminate;
      try reflexivity; lia.
  - repeat split; intros; try discriminate; reflexivity.
Qed.

Lemma blank_false (s : string) : blank s = false <-> trim s <> EmptyString.
Proof.
  unfold blank. destruct (trim s); simpl; split; congruence.
Qed.

Lemma validateForm_true_iff (st : State) :
  fst (validateForm st) = true <->
  trim (userName (formData st)) <> EmptyString /\
  trim (assignmentTitle (formData st)) <> EmptyString /\
  (aiTools (formData st) <> [] \/
   trim (customTool (formData st)) <> EmptyString) /\
  trim (usagePurpose (formData st)) <> EmptyString /\
  trim (aiContent (formData st)) <> EmptyString.
Proof.
  rewrite <- !blank_false. unfold validateForm.
  destruct (blank (userName (formData st)));
    [simpl; intuition (discriminate || congruence)|].
  destruct (blank (assignmentTitle (formData st)));
    [simpl; intuition (discriminate || congruence)|].
  destruct (aiTools (formData st)) as [|tool tools]; simpl.
  - destruct (blank (customTool (formData st)));
      [simpl; intuition (discriminate || congruence)|].
    destruct (blank (usagePurpose (formData st)));
      [simpl; intuition (discriminate || congruence)|].
    destruct (blank (aiContent (formData st)));
      simpl; intuition (discriminate || congruence).
  - destruct (blank (usagePurpose (formData st)));
      [simpl; intuition (discriminate || congruence)|].
    destruct (blank (aiContent (formData st)));
      simpl; intuition (discriminate || congruence).
Qed.

Lemma validateForm_true_same (st : State) :
  fst (validateForm st) = true -> snd (validateForm st) = st.
Proof.
  unfold validateForm.
  destruct (blank (userName (formData st)));
    [simpl; intuition (discriminate || congruence)|].
  destruct (blank (assignmentTitle (formData st)));
    [simpl; intuition (discriminate || congruence)|].
  destruct (aiTools (formData st)) as [|tool tools]; simpl.
  - destruct (blank (customTool (formData st)));
      [simpl; intuition (discriminate || congruence)|].
    destruct (blank (usagePurpose (formData st)));
      [simpl; intuition (discriminate || congruence)|].
    destruct (blank (aiContent (formData st)));
      simpl; intuition (discriminate || congruence).
  - destruct (blank (usagePurpose (formData st)));
      [simpl; intuition (discriminate || congruence)|].
    destruct (blank (aiContent (formData st)));
      simpl; intuition (discriminate || congruence).
Qed.

Lemma validateForm_false (st : State) :
  fst (validateForm st) = false ->
  error (snd (validateForm st)) <> EmptyString /\
  formData (snd (validateForm st)) = formData st /\
  loading (snd (validateForm st)) = loading st.
Proof.
  unfold validateForm.
  destruct (blank (userName (formData st)));
    [simpl; intuition (discriminate || congruence)|].
  destruct (blank (assignmentTitle (formData st)));
    [simpl; intuition (discriminate || congruence)|].
  destruct (aiTools (formData st)) as [|tool tools]; simpl.
  - destruct (blank (customTool (formData st)));
      [simpl; intuition (discriminate || congruence)|].
    destruct (blank (usagePurpose (formData st)));
      [simpl; intuition (discriminate || congruence)|].
    destruct (blank (aiContent (formData st)));
      simpl; intuition (discriminate || congruence).
  - destruct (blank (usagePurpose (formData st)));
      [simpl; intuition (discriminate || congruence)|].
    destruct (blank (aiContent (formData st)));
      simpl; intuition (discriminate || congruence).
Qed.

(** X12.  [validateForm] lets a form through exactly when name, title,
    purpose and content are not blank after trimming and a tool is
    checked or the custom tool is not blank; a form it refuses gets a
    non-empty message and is otherwise left as it is, and a form it lets
    through is not touched. *)
Theorem validateForm_spec (st : State) :
  let fd := formData st in
  (fst (validateForm st) = true <->
     trim (userName fd) <> EmptyString /\
     trim (assignmentTitle fd) <> EmptyString /\
     (aiTools fd <> [] \/ trim (customTool fd) <> EmptyString) /\
     trim (usagePurpose fd) <> EmptyString /\
     trim (aiContent fd) <> EmptyString) /\
  (fst (validateForm st) = true -> snd (validateForm st) = st) /\
  (fst (validateForm st) = false ->
     error (snd (validateForm st)) <> EmptyString /\
     formData (snd (validateForm st)) = formData st /\
     loading (snd (validateForm st)) = loading st).
Proof.
  simpl. split; [apply validateForm_true_iff|].
  split; [apply validateForm_true_same | apply validateForm_false].
Qed.

Lemma validateForm_setError (text : string) (st : State) :
  fst (validateForm (setError text st)) = fst (validateForm st).
Proof.
  unfold validateForm. simpl.
  repeat match goal with
         | |- context [if ?b then _ else _] => destruct b
         end; reflexivity.
Qed.

(** X13.  [handleSubmit] goes to the home page exactly when the form is
    valid and the API answered with [success: true]; in every other case
    it stays and shows a non-empty message; a form that is not valid is
    not sent (the outcome does not depend on the API). *)
Theorem handleSubmit_navigates_iff (post : SubmitData -> PostResult)
    (st : State) :
  (snd (handleSubmit post st) = true <->
     fst (validateForm st) = true /\
     post (submitData (formData st)) = Resolved true) /\
  (snd (handleSubmit post st) = false ->
     error (fst (handleSubmit post st)) <> EmptyString) /\
  (fst (validateForm st) = false ->
     forall post', handleSubmit post' st = handleSubmit post st).
Proof.
  unfold handleSubmit.
  pose proof (validateForm_setError EmptyString st) as Hsame.
  pose proof (validateForm_true_same (setError EmptyString st)) as Hok.
  pose proof (validateForm_false (setError EmptyString st)) as Hbad.
  destruct (validateForm (setError EmptyString st)) as [[|] st1] eqn:Hv;
    simpl in *.
  - rewrite <- Hsame. specialize (Hok eq_refl). subst st1. simpl.
    split; [|split; [|discriminate]].
    + destruct (post (submitData (formData st))) as [[|]|m]; simpl;
        intuition (discriminate || congruence).
    + destruct (post (submitData (formData st))) as [[|]|m]; simpl;
        try discriminate; intros _; try discriminate.
      destruct m as [[|ch m]|]; simpl; discriminate.
  - rewrite <- Hsame. split; [|split].
    + intuition discriminate.
    + intros _. now apply Hbad.
    + reflexivity.
Qed.

End WithPlatform.

End FormFacts.

(** ** The home page *)

Module HomeFacts.
Import Js Client ClientSpec ClientTheorems Home MoreSpec.

Lemma groups_nonempty (l : list Declaration) :
  Forall (fun group => group <> [])
    (Object_values (groupedDeclarations l)).
Proof.
  apply List.Forall_forall. intros group Hg.
  apply in_groups in Hg as (k & Hk & ->).
  apply in_map_iff in Hk as (d & Hd & Hin).
  intros Hnil.
  assert (Hd' : In d (with_key k l)) by now apply in_with_key.
  now rewrite Hnil in Hd'.
Qed.

Section WithPlatform.
Context `{Platform}.

Lemma render_cards (groups : list (list Declaration)) :
  Forall (fun group => group <> []) groups ->
  exists cards,
    map render_card groups = map Some cards /\
    map card_tools cards = map (map ai_tool) groups.
Proof.
  induction 1 as [|group groups Hne _ (cards & Hc & Ht)].
  - now exists [].
  - destruct group as [|first rest]; [congruence|].
    eexists (_ :: cards). simpl. rewrite Hc, Ht. split; reflexivity.
Qed.

(** X14.  Rendering the list never reads the first row of an empty group:
    every group gives a card, there is one card for each distinct key,
    and across the cards every fetched row contributes exactly one tool
    badge. *)
Theorem cards_show_every_tool (l : list Declaration) :
  exists cards,
    declarations_list l = map Some cards /\
    List.length cards = List.length (first_seen (map group_key l)) /\
    Permutation (List.concat (map card_tools cards)) (map ai_tool l).
Proof.
  destruct (render_cards _ (groups_nonempty l)) as (cards & Hc & Ht).
  exists cards. split; [exact Hc|]. split.
  - assert (Hlen : List.length (map card_tools cards)
                   = List.length (Object_values (groupedDeclarations l)))
      by now rewrite Ht, length_map.
    rewrite length_map in Hlen. rewrite Hlen.
    unfold Object_values. rewrite grouped_spec. now rewrite !length_map.
  - rewrite Ht, <- List.concat_map.
    apply Permutation_map, grouped_Permutation.
Qed.

Lemma view_at_rest (st : State) :
  loading st = false ->
  shows_only_error (HomePage st) \/ shows_only_empty (HomePage st) \/
  shows_only_list (HomePage st).
Proof.
  intros Hl. unfold shows_only_error, shows_only_empty, shows_only_list,
    HomePage. simpl. rewrite Hl. simpl.
  destruct (error st); simpl.
  - right. destruct (declarations st); simpl.
    + left. repeat split.
    + right. repeat split. discriminate.
  - left. repeat split. discriminate.
Qed.

(** X15.  Once [fetchDeclarations] has finished, whatever came back, the
    spinner is gone and the page shows exactly one of the error box, the
    empty state and the list of cards. *)
Theorem after_fetch_one_section (result : GetResult) (st : State) :
  let v := HomePage (fetchDeclarations result st) in
  loading_state v = false /\
  (shows_only_error v \/ shows_only_empty v \/ shows_only_list v) /\
  ~ (shows_only_error v /\ shows_only_empty v) /\
  ~ (shows_only_error v /\ shows_only_list v) /\
  ~ (shows_only_empty v /\ shows_only_list v).
Proof.
  assert (Hl : loading (fetchDeclarations result st) = false)
    by (destruct result as [[|] data|]; reflexivity).
  simpl. split; [exact Hl|]. split; [now apply view_at_rest|].
  unfold shows_only_error, shows_only_empty, shows_only_list.
  repeat split; intuition congruence.
Qed.

(** X16.  A fetch that fails (an error, or an answer without
    [success: true]) keeps the rows fetched before in the state, so the
    heading still counts them, but shows the error box and no card. *)
Theorem failed_fetch_keeps_rows (result : GetResult) (st : State) :
  (forall data, result <> Resolved true data) ->
  let st' := fetchDeclarations result st in
  declarations st' = declarations st /\
  count_shown (HomePage st') = List.length (declarations st) /\
  shows_only_error (HomePage st').
Proof.
  intros Hfail. unfold shows_only_error.
  destruct result as [[|] data|]; simpl.
  - now specialize (Hfail data).
  - repeat split. discriminate.
  - repeat split. discriminate.
Qed.

End WithPlatform.

End HomeFacts.

(** ** The response helpers *)

Module ResponsesFacts.
Import Js Server Responses.

(** X17.  [successResponse] answers with the given status (200 when none
    is given) and a body that holds every member of [data]; [success] is
    [true] and [message] is the given text (or [Success]) unless [data]
    has a member of that name, which then takes its place; the body has no
    other member. *)
Theorem successResponse_members (data : gmap string JsValue)
    (message : option string) (statusCode : option nat) :
  let '(code, body) := successResponse data message statusCode in
  code = default 200%nat statusCode /\
  (forall k v, data !! k = Some v -> body !! k = Some v) /\
  (data !! "success" = None -> body !! "success" = Some (JBool true)) /\
  (data !! "message" = None ->
     body !! "message" = Some (JStr (default "Success" message))) /\
  (forall k, k <> "success" -> k <> "message" -> body !! k = data !! k).
Proof.
  unfold successResponse. split; [reflexivity|].
  split; [|split; [|split]].
  - intros k v Hk. apply lookup_union_Some_l. exact Hk.
  - intros Hno. rewrite lookup_union_r by exact Hno.
    apply lookup_insert_eq.
  - intros Hno. rewrite lookup_union_r by exact Hno.
    rewrite lookup_insert_ne by discriminate. apply lookup_insert_eq.
  - intros k Hs Hm. rewrite lookup_union.
    rewrite lookup_insert_ne by congruence.
    rewrite lookup_insert_ne by congruence.
    rewrite lookup_empty. now destruct (data !! k).
Qed.

(** X18.  No response built by the error helpers or by the error
    middleware carries the error detail unless [NODE_ENV] is
    [development]; [notFoundError] never does; all of them say
    [success: false] with the status they are named after. *)
Theorem helpers_hide_error_detail (env : Env) (text : string)
    (detail : option string) (code : nat) :
  (NODE_ENV env <> Some "development" ->
     error (errorResponse env text code detail) = None /\
     error (validationError env text detail) = None /\
     error (serverError env text detail) = None /\
     error (errorMiddleware env text) = None) /\
  error (notFoundError env text) = None /\
  status (validationError env text detail) = 400%nat /\
  status (notFoundError env text) = 404%nat /\
  status (serverError env text detail) = 500%nat /\
  success (errorResponse env text code detail) = false /\
  (NODE_ENV env = Some "development" ->
     forall m, m <> EmptyString ->
       error (serverError env text (Some m)) = Some (ErrMessage m)).
Proof.
  unfold validationError, serverError, notFoundError, errorResponse,
    errorMiddleware, development. simpl.
  split; [|split; [reflexivity|]]; [|do 4 (split; [reflexivity|])].
  - intros Hno. rewrite bool_decide_eq_false_2 by exact Hno.
    destruct detail; auto.
  - intros Hdev m Hm. rewrite bool_decide_eq_true_2 by exact Hdev.
    destruct m; [congruence | reflexivity].
Qed.

End ResponsesFacts.

(** ** The form, the pages and the server together *)

Module EndToEnd.
Import Js Server Spec MoreSpec InsertFacts PostFacts PostTheorems GetTheorems
  RouteFacts Wire.

Section WithPlatform.
Context `{Platform} `{Form.Stringify}.


Lemma allTools_nonempty (st : Form.State) :
  fst (Form.validateForm st) = true ->
  Form.allTools (Form.formData st) <> [].
Proof.
  intros Hv. pose proof (FormFacts.validateForm_true_iff st) as Hiff.
  apply Hiff in Hv.
  destruct Hv as (_ & _ & Htools & _). unfold Form.allTools.
  destruct Htools as [Hsel|Hcustom].
  - destruct (Form.aiTools (Form.formData st)); [congruence | discriminate].
  - apply FormFacts.blank_false in Hcustom. rewrite Hcustom.
    now destruct (Form.aiTools (Form.formData st)).
Qed.

Lemma form_valid_submission (st : Form.State) :
  let fd := Form.formData st in
  fst (Form.validateForm st) = true ->
  round_trips (Form.allTools fd) ->
  valid_submission (fields (multipart (Form.submitData fd)))
    (trim (Form.userName fd)) (trim (Form.assignmentTitle fd))
    (Form.JSON_stringify (Form.allTools fd))
    (trim (Form.usagePurpose fd)) (trim (Form.aiContent fd))
    (map JStr (Form.allTools fd)).
Proof.
  intros fd Hv [Hne Hparse].
  pose proof (allTools_nonempty st Hv) as Htools.
  pose proof (FormFacts.validateForm_true_iff st) as Hiff.
  apply Hiff in Hv. destruct Hv as (Hu & Ha & _ & Hp & Hc).
  unfold valid_submission, parses_as_nonempty_array. simpl.
  repeat split; auto.
  subst fd. destruct (Form.allTools (Form.formData st));
    [congruence | discriminate].
Qed.

(** X19.  What a valid form sends passes the checks of the handler, as
    long as [JSON.parse] reads back what [JSON.stringify] wrote: the
    fields are the trimmed inputs, none of them empty, and the tools are
    the checked tools followed by the trimmed custom tool, so the server
    never answers such a submission with 400. *)
Theorem form_passes_server_checks (st : Form.State) :
  let fd := Form.formData st in
  fst (Form.validateForm st) = true ->
  round_trips (Form.allTools fd) ->
  valid_submission (fields (multipart (Form.submitData fd)))
    (trim (Form.userName fd)) (trim (Form.assignmentTitle fd))
    (Form.JSON_stringify (Form.allTools fd))
    (trim (Form.usagePurpose fd)) (trim (Form.aiContent fd))
    (map JStr (Form.allTools fd)) /\
  ~ rejected_submission (fields (multipart (Form.submitData fd))).
Proof.
  intros fd Hv Hrt.
  pose proof (form_valid_submission st Hv Hrt) as Hvalid.
  split; [exact Hvalid|].
  eapply rejected_not_valid. exact Hvalid.
Qed.

(** The answers of the route. *)
Lemma route_answers (env : Env) (w : World) (up : Upload) :
  exists r,
    snd (post_declarations env w up) = Responded r /\
    ((exists k, r = created k) \/
     r = bad_request "All fields except screenshot are required" \/
     r = bad_request "Invalid AI tools format" \/
     (exists m, r = creation_failure m) \/
     (exists m, r = errorMiddleware env m)).
Proof.
  unfold post_declarations.
  destruct (upload env w up) as [w' [req|m]] eqn:Hup;
    [|exists (errorMiddleware env m); simpl; eauto 10].
  pose proof (upload_stored env w w' up req Hup) as Hst.
  unfold router_post, post_try, reject.
  rewrite (unlink_stored req w' Hst).
  destruct (required_fields (body req)) as [[[[[u a] t] p] c]|];
    [|eexists; simpl; eauto 10].
  destruct (parse_tools t) as [items|]; [|eexists; simpl; eauto 10].
  rewrite run_inserts_spec.
  destruct (first_fault env 0 items) as [m|]; [|eexists; simpl; eauto 10].
  match goal with
  | |- context [unlink_uploaded req ?w1] =>
      assert (Hst1 : stored req w1) by exact Hst;
      rewrite (unlink_stored req w1 Hst1)
  end.
  exists (creation_failure m). simpl. eauto 10.
Qed.

(** X20.  When the server does not answer 201 to the form, the message
    the form shows is the [message] of the server's response, and the
    form stays on the page. *)
Theorem form_shows_server_message (env : Env) (w : World) (st : Form.State)
    (r : Response) :
  fst (Form.validateForm st) = true ->
  snd (post_declarations env w
         (multipart (Form.submitData (Form.formData st)))) = Responded r ->
  status r <> 201%nat ->
  let result := Form.handleSubmit (fun sd => snd (api_post env w sd)) st in
  snd result = false /\
  exists m, message r = Some m /\ m <> EmptyString /\
            Form.error (fst result) = m.
Proof.
  intros Hv Hr Hstatus. simpl.
  assert (Hmsg : resolves r = false /\
                 exists m, message r = Some m /\ m <> EmptyString).
  { destruct (route_answers env w
                (multipart (Form.submitData (Form.formData st))))
      as (r' & Hr' & Hcases).
    rewrite Hr in Hr'. injection Hr' as <-.
    destruct Hcases as [[k ->]|[->|[->|[[m ->]|[m ->]]]]];
      try (split; [reflexivity | eexists; split; [reflexivity | discriminate]]).
    simpl in Hstatus. congruence. }
  destruct Hmsg as (Hres & m & Hm & Hne).
  unfold Form.handleSubmit.
  pose proof (FormFacts.validateForm_setError EmptyString st) as Hsame.
  pose proof (FormFacts.validateForm_true_same (Form.setError EmptyString st))
    as Hok.
  destruct (Form.validateForm (Form.setError EmptyString st)) as [[|] st1];
    simpl in Hsame, Hok; [|congruence].
  specialize (Hok eq_refl). subst st1. simpl.
  unfold api_post.
  destruct (post_declarations env w
              (multipart (Form.submitData (Form.formData st))))
    as [w' out]. simpl in Hr. subst out. simpl.
  unfold post_result. rewrite Hres, Hm. simpl.
  split; [reflexivity|]. exists m. repeat split; auto.
  destruct m; [congruence | reflexivity].
Qed.



(** X23.  The home page against this server: when the query is fulfilled
    the page holds every row of the table, most recent first, and counts
    them; when it is not, the page keeps what it had and says that it
    could not connect; the message for an answer without
    [success: true] is never shown. *)
Theorem fetch_from_server (wire : Row -> Client.Declaration) (env : Env)
    (w : World) (st : Home.State) :
  let st' := Home.fetchDeclarations (api_get wire env w) st in
  (select_fault env = None ->
     Home.declarations st' = map wire (order_by_created_at_desc (table w)) /\
     Home.error st' = EmptyString /\
     Home.count_shown (Home.HomePage st') = List.length (table w)) /\
  (select_fault env <> None ->
     Home.declarations st' = Home.declarations st /\
     Home.error st'
     = "Failed to connect to the server. Please try again later.") /\
  Home.error st' <> "Failed to load declarations".
Proof.
  unfold api_get, router_get. simpl.
  destruct (select_fault env) as [m|]; simpl.
  - repeat split; intros; try congruence; discriminate.
  - split; [|split; [congruence | discriminate]].
    intros _. repeat split.
    now rewrite length_map, (Permutation_length (order_by_Permutation _)).
Qed.

End WithPlatform.

End EndToEnd.

(** ** Regrouping, and checking a box twice *)

Module MoreClientFacts.
Import Js Client ClientSpec ClientTheorems.

Lemma filter_twice {A : Type} (f : A -> bool) (l : list A) :
  List.filter f (List.filter f l) = List.filter f l.
Proof.
  induction l as [|x l IH]; simpl; [reflexivity|].
  destruct (f x) eqn:Hx; simpl; [rewrite Hx; now f_equal | exact IH].
Qed.

Lemma filter_keeps_all {A : Type} (f : A -> bool) (l : list A) :
  (forall x, In x l -> f x = true) -> List.filter f l = l.
Proof.
  induction l as [|x l IH]; intros Hall; simpl; [reflexivity|].
  rewrite (Hall x) by now left. f_equal. apply IH.
  intros y Hy. apply Hall. now right.
Qed.

Lemma first_seen_cons (k : string) (keys : list string) :
  first_seen (k :: keys) =
  k :: List.filter (fun k' => negb (String.eqb k' k)) (first_seen keys).
Proof. reflexivity. Qed.

Lemma first_seen_run (k : string) (n : nat) (rest : list string) :
  first_seen (repeat k (S n) ++ rest) =
  k :: List.filter (fun k' => negb (String.eqb k' k)) (first_seen rest).
Proof.
  induction n as [|n IH]; [reflexivity|].
  change (repeat k (S (S n)) ++ rest)%list
    with (k :: (repeat k (S n) ++ rest))%list.
  rewrite first_seen_cons, IH. f_equal.
  change (List.filter (fun k' => negb (String.eqb k' k))
            (k :: List.filter (fun k' => negb (String.eqb k' k))
                    (first_seen rest)))
    with (if negb (String.eqb k k)
          then k :: List.filter (fun k' => negb (String.eqb k' k))
                      (List.filter (fun k' => negb (String.eqb k' k))
                         (first_seen rest))
          else List.filter (fun k' => negb (String.eqb k' k))
                 (List.filter (fun k' => negb (String.eqb k' k))
                    (first_seen rest))).
  rewrite String.eqb_refl. simpl. apply filter_twice.
Qed.

Lemma first_seen_runs (keys : list string) (n : string -> nat) :
  List.NoDup keys -> (forall k, In k keys -> (0 < n k)%nat) ->
  first_seen (List.concat (map (fun k => repeat k (n k)) keys)) = keys.
Proof.
  induction keys as [|k keys IH]; intros Hnd Hpos; [reflexivity|].
  inversion Hnd as [|? ? Hk Hnd']; subst. simpl.
  destruct (n k) as [|m] eqn:Hn.
  - specialize (Hpos k (or_introl eq_refl)). lia.
  - rewrite first_seen_run, IH; auto.
    + f_equal. apply filter_keeps_all. intros k' Hk'.
      apply negb_true_iff, String.eqb_neq. congruence.
    + intros k' Hk'. apply Hpos. now right.
Qed.

Lemma keys_with_key (k : string) (l : list Declaration) :
  map group_key (with_key k l) = repeat k (List.length (with_key k l)).
Proof.
  unfold with_key. induction l as [|d l IH]; simpl; [reflexivity|].
  destruct (String.eqb_spec (group_key d) k) as [Heq|Hne]; [|exact IH].
  simpl. now rewrite Heq, IH.
Qed.

Lemma with_key_app (k : string) (l1 l2 : list Declaration) :
  with_key k (l1 ++ l2) = (with_key k l1 ++ with_key k l2)%list.
Proof. unfold with_key. apply List.filter_app. Qed.

Lemma with_key_other (k k' : string) (l : list Declaration) :
  k' <> k -> with_key k (with_key k' l) = [].
Proof.
  intros Hne. apply with_key_nil. intros Hin.
  apply in_map_iff in Hin as (d & Hd & Hin).
  apply in_with_key in Hin as [_ Hk']. congruence.
Qed.

Lemma with_key_same (k : string) (l : list Declaration) :
  with_key k (with_key k l) = with_key k l.
Proof. unfold with_key. apply filter_twice. Qed.

Lemma with_key_concat (k : string) (keys : list string)
    (l : list Declaration) :
  List.NoDup keys -> In k keys ->
  with_key k (List.concat (map (fun k' => with_key k' l) keys)) = with_key k l.
Proof.
  induction keys as [|k0 keys IH]; intros Hnd Hin; [contradiction|].
  inversion Hnd as [|? ? Hk0 Hnd']; subst. simpl.
  rewrite with_key_app.
  destruct (string_dec k0 k) as [->|Hne].
  - rewrite with_key_same.
    assert (Hrest : with_key k (List.concat (map (fun k' => with_key k' l) keys))
                    = []).
    { clear IH Hin Hnd. induction keys as [|k1 keys IH]; [reflexivity|].
      inversion Hnd' as [|? ? Hk1 Hnd'']; subst. simpl.
      rewrite with_key_app, with_key_other, IH; auto.
      - intros Hin. apply Hk0. now right.
      - intros ->. apply Hk0. now left. }
    now rewrite Hrest, app_nil_r.
  - rewrite with_key_other by exact Hne. simpl.
    apply IH; [exact Hnd'|]. destruct Hin; [congruence | assumption].
Qed.

(** X24.  Grouping is stable under regrouping: laying the groups end to
    end and grouping again gives the same groups, in the same order. *)
Theorem regrouping_same (l : list Declaration) :
  groupedDeclarations (List.concat (Object_values (groupedDeclarations l)))
  = groupedDeclarations l.
Proof.
  set (keys := first_seen (map group_key l)).
  assert (Hvalues : Object_values (groupedDeclarations l)
                    = map (fun k => with_key k l) keys).
  { unfold Object_values. rewrite grouped_spec, map_map. reflexivity. }
  rewrite Hvalues, (grouped_spec l). fold keys.
  rewrite grouped_spec.
  assert (Hkeys : first_seen
            (map group_key (List.concat (map (fun k => with_key k l) keys)))
          = keys).
  { rewrite List.concat_map, map_map.
    rewrite (map_ext _ (fun k => repeat k (List.length (with_key k l))))
      by (intros k; apply keys_with_key).
    apply first_seen_runs; [apply NoDup_first_seen|].
    intros k Hk. apply in_first_seen, in_map_iff in Hk as (d & Hd & Hin).
    assert (Hd' : In d (with_key k l)) by now apply in_with_key.
    destruct (with_key k l); [contradiction | simpl; lia]. }
  rewrite Hkeys. apply map_ext_in. intros k Hk. f_equal.
  apply with_key_concat; [apply NoDup_first_seen | exact Hk].
Qed.

(** X25.  Checking a box and unchecking it again restores the selection:
    toggling a tool twice gives a list with the same tools, and the very
    same list when the tool was not selected to begin with. *)
Theorem toggle_twice (tool : string) (tools : list string) :
  List.NoDup tools ->
  Permutation (Form.toggle tool (Form.toggle tool tools)) tools /\
  (~ In tool tools -> Form.toggle tool (Form.toggle tool tools) = tools).
Proof.
  intros Hnd.
  destruct (Form.includes tools tool) eqn:Hinc.
  - assert (Hin : In tool tools) by now apply FormFacts.includes_In.
    split; [|tauto].
    assert (Hfirst : Form.toggle tool tools
                     = List.filter (fun t => negb (String.eqb t tool)) tools)
      by (unfold Form.toggle; now rewrite Hinc).
    rewrite Hfirst. unfold Form.toggle.
    assert (Hout : Form.includes
              (List.filter (fun t => negb (String.eqb t tool)) tools) tool
            = false).
    { apply not_true_is_false. intros Hyes.
      apply FormFacts.includes_In, List.filter_In in Hyes as [_ Hyes].
      now rewrite String.eqb_refl in Hyes. }
    rewrite Hout. clear Hout Hinc Hfirst.
    induction tools as [|t tools IH]; [contradiction|].
    inversion Hnd as [|? ? Ht Hnd']; subst. simpl.
    destruct (String.eqb_spec t tool) as [->|Hne]; simpl.
    + rewrite filter_keeps_all.
      * symmetry. apply Permutation_cons_append.
      * intros x Hx. apply negb_true_iff, String.eqb_neq. congruence.
    + constructor. apply IH; [exact Hnd'|].
      destruct Hin; [congruence | assumption].
  - assert (Hout : ~ In tool tools).
    { intros Hin. apply FormFacts.includes_In in Hin. congruence. }
    assert (Heq : Form.toggle tool (tools ++ [tool]) = tools).
    { unfold Form.toggle.
      assert (Hyes : Form.includes (tools ++ [tool]) tool = true).
      { apply FormFacts.includes_In, in_app_iff. right. now left. }
      rewrite Hyes, List.filter_app. simpl. rewrite String.eqb_refl. simpl.
      rewrite app_nil_r. apply filter_keeps_all.
      intros x Hx. apply negb_true_iff, String.eqb_neq. congruence. }
    assert (Hfirst : Form.toggle tool tools = (tools ++ [tool])%list)
      by (unfold Form.toggle; now rewrite Hinc).
    rewrite Hfirst, Heq. split; reflexivity.
Qed.

End MoreClientFacts.

(** ** The form and the route on the scenario *)

Module MoreExamples.
Import Js Server Spec MoreSpec Scenario FormScenario Wire.
Import RefPlatform.

Lemma alice_form_valid : fst (Form.validateForm alice_form) = true.
Proof. vm_compute. reflexivity. Defined.

Lemma alice_tools_round_trip :
  round_trips (Form.allTools (Form.formData alice_form)).
Proof. split; [vm_compute; discriminate | vm_compute; reflexivity]. Defined.

(** X4 on Alice's submission with its screenshot, the second insert
    rejected. *)
Lemma created_iff_all_accepted_witness :
  exists r rows,
    snd (router_post env_faulty shot_stored alice_with_shot) = Responded r /\
    table (fst (router_post env_faulty shot_stored alice_with_shot))
    = (table shot_stored ++ rows)%list /\
    (status r = 201%nat <->
       forall i, (i < 2)%nat -> insert_fault env_faulty i = None) /\
    (status r = 500%nat <->
       exists i, (i < 2)%nat /\ insert_fault env_faulty i <> None) /\
    List.length rows =
      List.length
        (List.filter (fun i => bool_decide (insert_fault env_faulty i = None))
           (seq 0 2)).
Proof.
  apply (RouteFacts.created_iff_all_accepted env_faulty shot_stored
           alice_with_shot "Alice" "Essay 1" alice_tools "brainstorming"
           "outline" [JStr "ChatGPT"; JStr "Grammarly"]).
  - exact Examples.alice_valid.
  - intros f [= <-]. exact Examples.shot_is_stored.
Defined.

(** X6 on Alice's upload of a PNG. *)
Lemma created_rows_refer_to_stored_file_witness :
  (uploadDir ++ "/" ++ storage_filename env_up png_part)
    ∈ uploads (fst (post_declarations env_up initial alice_upload)) /\
  exists rows,
    rows <> [] /\
    table (fst (post_declarations env_up initial alice_upload))
    = (table initial ++ rows)%list /\
    Forall (fun row =>
              screenshot_path row
              = Some ("/uploads/" ++ storage_filename env_up png_part)) rows.
Proof.
  apply (RouteFacts.created_rows_refer_to_stored_file env_up initial
           alice_upload png_part (created 2)).
  - reflexivity.
  - vm_compute. reflexivity.
  - reflexivity.
Defined.

(** X7 on Alice's submission to an empty table. *)
Lemma get_after_post_witness :
  exists rows fetched,
    snd (router_post env_up initial alice) = Responded (created 2) /\
    map ai_tool rows = [JStr "ChatGPT"; JStr "Grammarly"] /\
    snd (router_get env_up (fst (router_post env_up initial alice))) =
      Responded {| status := 200; success := true; message := None;
                   error := None; count := Some 2%nat;
                   data := Some fetched |} /\
    Permutation fetched (table initial ++ rows).
Proof.
  apply (RouteFacts.get_after_post env_up env_up initial alice
           "Alice" "Essay 1" alice_tools "brainstorming" "outline"
           [JStr "ChatGPT"; JStr "Grammarly"]).
  - exact Examples.alice_valid.
  - intros i _. reflexivity.
  - reflexivity.
Defined.

(** X10 on the form after a PNG was chosen. *)
Lemma form_screenshot_checked_witness :
  String.prefix "image/" (Form.type png_file) = true /\
  (Form.size png_file <= 5 * 1024 * 1024)%Z.
Proof.
  apply (FormFacts.form_screenshot_checked
           (alice_events ++ [Form.FileChange (Some png_file)]) png_file).
  vm_compute. reflexivity.
Defined.

(** X16 on a page that held Alice's two rows when the server went away. *)
Lemma failed_fetch_keeps_rows_witness :
  let st := {| Home.declarations :=
                 [ClientScenario.chatgpt_row; ClientScenario.grammarly_row];
               Home.loading := false; Home.error := EmptyString |} in
  let st' := Home.fetchDeclarations Home.Failed st in
  Home.declarations st' = Home.declarations st /\
  Home.count_shown (Home.HomePage st') = List.length (Home.declarations st) /\
  shows_only_error (Home.HomePage st').
Proof.
  intros st.
  apply (HomeFacts.failed_fetch_keeps_rows Home.Failed st).
  intros data. discriminate.
Defined.

(** X19 on Alice's form. *)
Lemma form_passes_server_checks_witness :
  let fd := Form.formData alice_form in
  valid_submission (fields (multipart (Form.submitData fd)))
    (trim (Form.userName fd)) (trim (Form.assignmentTitle fd))
    (Form.JSON_stringify (Form.allTools fd))
    (trim (Form.usagePurpose fd)) (trim (Form.aiContent fd))
    (map JStr (Form.allTools fd)) /\
  ~ rejected_submission (fields (multipart (Form.submitData fd))).
Proof.
  apply (EndToEnd.form_passes_server_checks alice_form).
  - exact alice_form_valid.
  - exact alice_tools_round_trip.
Defined.

(** X20 on Alice's form when the second insert is rejected. *)
Lemma form_shows_server_message_witness :
  let result :=
    Form.handleSubmit (fun sd => snd (api_post env_faulty initial sd))
      alice_form in
  snd result = false /\
  exists m, message (creation_failure "Connection lost") = Some m /\
            m <> EmptyString /\ Form.error (fst result) = m.
Proof.
  apply (EndToEnd.form_shows_server_message env_faulty initial alice_form
           (creation_failure "Connection lost")).
  - exact alice_form_valid.
  - vm_compute. reflexivity.
  - discriminate.
Defined.



(** X25 on a selection of two tools. *)
Lemma toggle_twice_witness :
  Permutation
    (Form.toggle "Claude" (Form.toggle "Claude" ["ChatGPT"; "Claude"]))
    ["ChatGPT"; "Claude"] /\
  (~ In "Claude" ["ChatGPT"; "Claude"] ->
   Form.toggle "Claude" (Form.toggle "Claude" ["ChatGPT"; "Claude"])
   = ["ChatGPT"; "Claude"]).
Proof.
  apply (MoreClientFacts.toggle_twice "Claude" ["ChatGPT"; "Claude"]).
  repeat constructor; simpl; intuition discriminate.
Defined.

(** The scenario through the form: what Alice's form sends. *)
Example alice_form_sends :
  Form.submitted alice_form =
  Some {| Form.submit_userName := "Alice";
          Form.submit_assignmentTitle := "Essay 1";
          Form.submit_usagePurpose := "brainstorming";
          Form.submit_aiContent := "outline";
          Form.submit_aiTools := alice_tools;
          Form.submit_screenshot := None |}.
Proof. vm_compute. reflexivity. Qed.

End MoreExamples.

(** ** Images that pass the filter, and submitting twice *)

Module MoreRouteFacts.
Import Js Server Spec JsFacts InsertFacts PostFacts PostTheorems.

Lemma append_empty (s : string) : s ++ EmptyString = s.
Proof.
  induction s as [|ch s IH]; [reflexivity|].
  change (String ch (s ++ EmptyString) = String ch s). now rewrite IH.
Qed.

Section WithPlatform.
Context `{Platform}.

(** X11.  The filter lets through every file whose lowercased extension
    is a dot followed by one of [jpeg], [jpg], [png], [gif], [webp] and
    whose MIME type is [image/] followed by one of them; with a size of
    at most 5 * 1024 * 1024 bytes the upload stage writes such a file into
    the uploads directory under its generated name, leaves the table
    alone, and hands the handler the body with that file. *)
Theorem images_pass_filter (env : Env) (w : World) (up : Upload)
    (part : FilePart) (t t' : string) :
  screenshot up = Some part ->
  In t allowedTypes -> In t' allowedTypes ->
  toLowerCase (extname (originalname part)) = "." ++ t ->
  mimetype part = "image/" ++ t' ->
  fileFilter part = Returned true /\
  ((size part <= 5 * 1024 * 1024)%Z ->
     let stored_as := uploadDir ++ "/" ++ storage_filename env part in
     upload env w up =
       ({| table := table w; next_id := next_id w;
           uploads := uploads w ∪ {[stored_as]} |},
        Returned
          {| body := fields up;
             file := Some {| filename := storage_filename env part;
                             path := stored_as |} |}) /\
     stored_as ∈ uploads (fst (upload env w up))).
Proof.
  intros Hpart Ht Ht' Hext Hmime.
  assert (Hfilter : fileFilter part = Returned true).
  { unfold fileFilter.
    assert (He : regex_test allowedTypes
                   (toLowerCase (extname (originalname part))) = true).
    { apply regex_test_spec. exists t. split; [exact Ht|].
      exists ".", EmptyString. now rewrite Hext, append_empty. }
    assert (Hm : regex_test allowedTypes (mimetype part) = true).
    { apply regex_test_spec. exists t'. split; [exact Ht'|].
      exists "image/", EmptyString. now rewrite Hmime, append_empty. }
    now rewrite He, Hm. }
  split; [exact Hfilter|].
  intros Hsize stored_as.
  assert (Hup : upload env w up =
       ({| table := table w; next_id := next_id w;
           uploads := uploads w ∪ {[stored_as]} |},
        Returned
          {| body := fields up;
             file := Some {| filename := storage_filename env part;
                             path := stored_as |} |})).
  { unfold upload. rewrite Hpart, Hfilter.
    change fileSize with (5 * 1024 * 1024)%Z.
    destruct (Z.leb_spec (size part) (5 * 1024 * 1024)) as [_|Hgt]; [|lia].
    reflexivity. }
  split; [exact Hup|].
  rewrite Hup. simpl. apply elem_of_union_r, elem_of_singleton_2. reflexivity.
Qed.

(** X26.  The handler has no memory of earlier submissions: sending the
    same valid submission twice, the inserts accepted both times, adds
    its rows twice, the second batch after the first and under new
    identifiers. *)
Theorem resubmission_duplicates (env1 env2 : Env) (w : World)
    (req : Request) (u a t p c : string) (items : list JsValue) :
  valid_submission (body req) u a t p c items ->
  (forall i, (i < List.length items)%nat -> insert_fault env1 i = None) ->
  (forall i, (i < List.length items)%nat -> insert_fault env2 i = None) ->
  let w1 := fst (router_post env1 w req) in
  let w2 := fst (router_post env2 w1 req) in
  exists rows1 rows2,
    table w1 = (table w ++ rows1)%list /\
    table w2 = (table w ++ rows1 ++ rows2)%list /\
    map ai_tool rows1 = items /\ map ai_tool rows2 = items /\
    Forall (shares u a p c (screenshotPath req)) (rows1 ++ rows2) /\
    Forall (fun r1 => Forall (fun r2 => (id r1 < id r2)%Z) rows2) rows1.
Proof.
  intros Hv Hok1 Hok2 w1 w2.
  assert (Hpost : forall env w0,
    (forall i, (i < List.length items)%nat -> insert_fault env i = None) ->
    fst (router_post env w0 req) =
      {| table := table w0
                  ++ inserted_rows env u a p c (screenshotPath req) 0
                       (next_id w0) items;
         next_id := next_id w0 + Z.of_nat (List.length items);
         uploads := uploads w0 |} /\
    map ai_tool (inserted_rows env u a p c (screenshotPath req) 0
                   (next_id w0) items) = items).
  { intros env w0 Hok.
    destruct (inserted_rows_all env u a p c (screenshotPath req) items 0
                (next_id w0) Hok) as [Hmap Hfault].
    split; [|exact Hmap].
    unfold router_post. rewrite (post_valid env w0 req u a t p c items Hv).
    rewrite Hfault, run_inserts_spec. simpl. f_equal.
    rewrite <- Hmap at 2. now rewrite length_map. }
  destruct (Hpost env1 w Hok1) as [H1 Hmap1].
  destruct (Hpost env2 w1 Hok2) as [H2 Hmap2].
  exists (inserted_rows env1 u a p c (screenshotPath req) 0 (next_id w) items),
    (inserted_rows env2 u a p c (screenshotPath req) 0 (next_id w1) items).
  split; [subst w1; now rewrite H1|].
  split; [subst w2; rewrite H2; subst w1; rewrite H1; simpl;
          now rewrite <- app_assoc|].
  split; [exact Hmap1|]. split; [exact Hmap2|]. split.
  - apply Forall_app. split; apply inserted_rows_share.
  - destruct (RouteFacts.inserted_rows_ids env1 u a p c (screenshotPath req)
                items 0 (next_id w)) as [_ Hb1].
    destruct (RouteFacts.inserted_rows_ids env2 u a p c (screenshotPath req)
                items 0 (next_id w1)) as [_ Hb2].
    assert (Hnext : next_id w1 = (next_id w + Z.of_nat (List.length items))%Z)
      by (subst w1; now rewrite H1).
    assert (Hlen1 : List.length
              (inserted_rows env1 u a p c (screenshotPath req) 0 (next_id w)
                 items) = List.length items)
      by (rewrite <- Hmap1 at 2; now rewrite length_map).
    eapply Forall_impl; [exact Hb1|]. simpl. intros r1 Hr1.
    eapply Forall_impl; [exact Hb2|]. simpl. intros r2 Hr2.
    rewrite Hlen1 in Hr1. lia.
Qed.

End WithPlatform.

End MoreRouteFacts.

Module MoreRouteExamples.
Import Js Server Spec Scenario.
Import RefPlatform.

(** X11 on the PNG of the scenario. *)
Lemma images_pass_filter_witness :
  fileFilter png_part = Returned true /\
  ((size png_part <= 5 * 1024 * 1024)%Z ->
     let stored_as := uploadDir ++ "/" ++ storage_filename env_up png_part in
     upload env_up initial alice_upload =
       ({| table := table initial; next_id := next_id initial;
           uploads := uploads initial ∪ {[stored_as]} |},
        Returned
          {| body := fields alice_upload;
             file := Some {| filename := storage_filename env_up png_part;
                             path := stored_as |} |}) /\
     stored_as ∈ uploads (fst (upload env_up initial alice_upload))).
Proof.
  apply (MoreRouteFacts.images_pass_filter env_up initial alice_upload
           png_part "png" "png").
  - reflexivity.
  - simpl. tauto.
  - simpl. tauto.
  - vm_compute. reflexivity.
  - reflexivity.
Defined.

(** X26 on Alice's submission, sent twice. *)
Lemma resubmission_duplicates_witness :
  let w1 := fst (router_post env_up initial alice) in
  let w2 := fst (router_post env_up w1 alice) in
  exists rows1 rows2,
    table w1 = (table initial ++ rows1)%list /\
    table w2 = (table initial ++ rows1 ++ rows2)%list /\
    map ai_tool rows1 = [JStr "ChatGPT"; JStr "Grammarly"] /\
    map ai_tool rows2 = [JStr "ChatGPT"; JStr "Grammarly"] /\
    Forall (shares "Alice" "Essay 1" "brainstorming" "outline"
              (screenshotPath alice)) (rows1 ++ rows2) /\
    Forall (fun r1 => Forall (fun r2 => (id r1 < id r2)%Z) rows2) rows1.
Proof.
  apply (MoreRouteFacts.resubmission_duplicates env_up env_up initial alice
           "Alice" "Essay 1" alice_tools "brainstorming" "outline"
           [JStr "ChatGPT"; JStr "Grammarly"]).
  - exact Examples.alice_valid.
  - intros i _. reflexivity.
  - intros i _. reflexivity.
Defined.

End MoreRouteExamples.
